(** * The byte-efficiency audit of Lighthouse

    A shallow embedding of [core/audits/byte-efficiency/byte-efficiency-audit.js]
    (class [ByteEfficiencyAudit]) and the properties of it that the
    specification states.

    Conventions of the embedding.
    - Times (milliseconds), byte counts carried by the dependency graph and
      the wasted bytes of the detectors are finite numbers, modelled as
      rationals [Q] with exact arithmetic; the rounding of binary64 and signed
      zeros are not modelled.  [estimateTransferSize] is the one function that
      guards against missing and non-finite numbers itself ([|| 0],
      [Number.isFinite]); its arguments are modelled with [Js.number], which
      has the two infinities and NaN, and with [option] for [undefined].
    - Objects that the code mutates live in a store ([World]): the network
      records that graph nodes point to, and the arrays of detector items.
      Functions with effects are computations [M A] over that store which
      either return or throw.
    - Collaborators that live in other files of the repository (the
      simulator, the graph builders, the detectors) are variables of the
      section in which the audit is defined. *)

From Stdlib Require Import QArith Qround Qminmax Lqa Sorted Permutation.
From stdpp Require Import gmap strings list functions.

Local Open Scope Q_scope.

(** ** JavaScript numbers, as far as [estimateTransferSize] distinguishes them *)

Module Js.

Inductive number : Type :=
| Num (q : Q)
| PosInf
| NegInf
| NaN.

(** The sign of a number as a [comparison] with zero; NaN has none and is
    mapped to [Eq] only where the caller has excluded it. *)
Definition sign (n : number) : comparison :=
  match n with
  | Num q => q ?= 0
  | PosInf => Gt
  | NegInf => Lt
  | NaN => Eq
  end.

Definition mulSign (a b : comparison) : comparison :=
  match a, b with
  | Eq, _ | _, Eq => Eq
  | Gt, Gt | Lt, Lt => Gt
  | Gt, Lt | Lt, Gt => Lt
  end.

(** Infinity of the given sign; [Eq] stands for the undefined forms
    (0 * Infinity, 0 / 0), which are NaN. *)
Definition infinity (s : comparison) : number :=
  match s with
  | Gt => PosInf
  | Lt => NegInf
  | Eq => NaN
  end.

(** [a * b]; finite operands are multiplied exactly, where binary64 rounds
    the product to the nearest double. *)
Definition mul (a b : number) : number :=
  match a, b with
  | NaN, _ | _, NaN => NaN
  | Num x, Num y => Num (x * y)
  | _, _ => infinity (mulSign (sign a) (sign b))
  end.

(** [a / b]; a zero divisor is taken to be +0.  Finite operands are divided
    exactly, where binary64 rounds the quotient to the nearest double: the
    code's [Math.round(45 * (7 / 10))] is 31, because its product falls just
    below 31.5, and the exact one is 32.  Statements about a ratio therefore
    speak of an integer nearest to the exact product. *)
Definition div (a b : number) : number :=
  match a, b with
  | NaN, _ | _, NaN => NaN
  | Num x, Num y =>
      if Qeq_bool y 0 then infinity (sign a) else Num (x / y)
  | Num _, _ => Num 0
  | _, Num y =>
      infinity (mulSign (sign a) (if Qeq_bool y 0 then Gt else sign b))
  | _, _ => NaN
  end.

(** [Math.round]: the nearest integer, halves rounded towards +Infinity. *)
Definition round (a : number) : number :=
  match a with
  | Num x => Num (inject_Z (Qfloor (x + 0.5)))
  | _ => a
  end.

(** [Number.isFinite] *)
Definition isFinite (a : number) : bool :=
  match a with
  | Num _ => true
  | _ => false
  end.

(** [a < b]; every comparison with NaN is false. *)
Definition ltb (a b : number) : bool :=
  match a, b with
  | NaN, _ | _, NaN => false
  | Num x, Num y => negb (Qle_bool y x)
  | _, NegInf => false
  | NegInf, _ => true
  | PosInf, _ => false
  | _, PosInf => true
  end.

(** [a > b] *)
Definition gtb (a b : number) : bool := ltb b a.

(** Truthiness of a number: 0 and NaN are falsy. *)
Definition truthy (a : number) : bool :=
  match a with
  | Num x => negb (Qeq_bool x 0)
  | NaN => false
  | _ => true
  end.

(** [v || d] for a possibly undefined number [v]. *)
Definition orElse (v : option number) (d : number) : number :=
  match v with
  | Some a => if truthy a then a else d
  | None => d
  end.

(** Equality of numbers as values: rationals are compared by [Qeq], and NaN
    is related to itself, so that "the function returns NaN" can be said. *)
Definition same (a b : number) : Prop :=
  match a, b with
  | Num x, Num y => x == y
  | PosInf, PosInf | NegInf, NegInf | NaN, NaN => True
  | _, _ => False
  end.

(** [a <= b] as a proposition; false as soon as NaN is involved. *)
Definition le (a b : number) : Prop :=
  match a, b with
  | NaN, _ | _, NaN => False
  | Num x, Num y => x <= y
  | NegInf, _ | _, PosInf => True
  | _, _ => False
  end.

End Js.

(** ** Network records as the estimator and the audit entry point read them *)

Module NetworkRequest.

(** The fields of [LH.Artifacts.NetworkRequest] that are read through a
    guard: any of them can be [undefined]. *)
Record t : Type := {
  resourceType : option string;
  transferSize : option Js.number;
  resourceSize : option Js.number;
}.

End NetworkRequest.

(** [resourceType] of a [switch] or of [===]: a protocol resource type or
    [undefined]. *)
Definition ResourceType : Type := option string.

Definition isResourceType (resourceType : ResourceType) (name : string) : bool :=
  bool_decide (resourceType = Some name).

(** ** [ByteEfficiencyAudit.estimateTransferSize] *)

Definition estimateTransferSize (networkRecord : option NetworkRequest.t)
    (totalBytes : Js.number) (resourceType : ResourceType) : Js.number :=
  match networkRecord with
  | None =>
      if isResourceType resourceType "Stylesheet" then
        Js.round (Js.mul totalBytes (Js.Num 0.2))
      else if isResourceType resourceType "Script"
              || isResourceType resourceType "Document" then
        Js.round (Js.mul totalBytes (Js.Num 0.33))
      else
        Js.round (Js.mul totalBytes (Js.Num 0.5))
  | Some networkRecord =>
      if bool_decide (NetworkRequest.resourceType networkRecord = resourceType) then
        Js.orElse (NetworkRequest.transferSize networkRecord) (Js.Num 0)
      else
        let transferSize :=
          Js.orElse (NetworkRequest.transferSize networkRecord) (Js.Num 0) in
        let resourceSize :=
          Js.orElse (NetworkRequest.resourceSize networkRecord) (Js.Num 0) in
        let compressionRatio :=
          if Js.isFinite resourceSize && Js.gtb resourceSize (Js.Num 0)
          then Js.div transferSize resourceSize
          else Js.Num 1 in
        Js.round (Js.mul totalBytes compressionRatio)
  end.

(** ** [ByteEfficiencyAudit.scoreForWastedMs] *)

Definition WASTED_MS_FOR_AVERAGE : Q := 300.
Definition WASTED_MS_FOR_POOR : Q := 750.
Definition WASTED_MS_FOR_SCORE_OF_ZERO : Q := 5000.

(** Modelled from the spec: [linearInterpolation] is imported from
    [lib/statistics.js], which is not among the sources; the specification
    says that between two anchor points the score is linearly interpolated.
    This is the line through [(x0, y0)] and [(x1, y1)], evaluated at [x]. *)
Definition linearInterpolation (x0 y0 x1 y1 x : Q) : Q :=
  y0 + (x - x0) * ((y1 - y0) / (x1 - x0)).

(** [a < b] on finite numbers. *)
Definition Qlt_bool (a b : Q) : bool := negb (Qle_bool b a).

Definition scoreForWastedMs (wastedMs : Q) : Q :=
  if Qle_bool wastedMs 0 then
    1
  else if Qlt_bool wastedMs WASTED_MS_FOR_AVERAGE then
    linearInterpolation 0 1 WASTED_MS_FOR_AVERAGE 0.75 wastedMs
  else if Qlt_bool wastedMs WASTED_MS_FOR_POOR then
    linearInterpolation WASTED_MS_FOR_AVERAGE 0.75 WASTED_MS_FOR_POOR 0.5 wastedMs
  else
    Qmax 0
      (linearInterpolation WASTED_MS_FOR_POOR 0.5 WASTED_MS_FOR_SCORE_OF_ZERO 0 wastedMs).

(** [Math.round] on finite numbers. *)
Definition Math_round (x : Q) : Q := inject_Z (Qfloor (x + 0.5)).

(** [Math.round(Math.max(savings, 0) / 10) * 10], the expression that both
    savings computations end with. *)
Definition roundedSavings (savings : Q) : Q :=
  Math_round (Qmax savings 0 / 10) * 10.

(** ** Effects: a store of mutable objects, a log of calls, exceptions *)

(** How a call ends: it returns a value or throws an [Error] with a message. *)
Inductive outcome (A : Type) : Type :=
| Returned (value : A)
| Thrown (message : string).

Arguments Returned {A} value.
Arguments Thrown {A} message.

Module ByteEfficiencyItem.

(** [LH.Audit.ByteEfficiencyItem]: the fields the audit reads. *)
Record t : Type := {
  url : string;
  wastedBytes : Q;
}.

End ByteEfficiencyItem.

Module NodeRecord.

(** [node.record] of a network node: the fields that the simulation reads
    and the one it writes.  The code subtracts from [transferSize] and
    stores the result back without any guard, so it is a finite number. *)
Record t : Type := {
  requestId : string;
  url : string;
  transferSize : Q;
}.

(** [record.transferSize = value] *)
Definition setTransferSize (record : t) (value : Q) : t :=
  {| requestId := requestId record; url := url record; transferSize := value |}.

End NodeRecord.

(** References to objects of the store. *)
Definition ref : Type := nat.

(** The calls to collaborators that a run makes, in order. *)
Inductive Event : Type :=
| NetworkRecordsRequest
| DetectorRun
| PageDependencyGraphRequest
| LoadSimulatorRequest
| ProcessedNavigationRequest
| Simulate (label : string)
| ComputeWastedMsFromWastedBytes (wastedBytes : Q)
| ConsoleLog (id : string) (FCP LCP : Q).

Record World : Type := {
  records : ref -> NodeRecord.t;
  arrays : ref -> list ByteEfficiencyItem.t;
  log : list Event;
}.

Definition withRecords (w : World) (h : ref -> NodeRecord.t) : World :=
  {| records := h; arrays := arrays w; log := log w |}.

Definition withArrays (w : World) (a : ref -> list ByteEfficiencyItem.t) : World :=
  {| records := records w; arrays := a; log := log w |}.

Definition withLog (w : World) (l : list Event) : World :=
  {| records := records w; arrays := arrays w; log := l |}.

(** Computations: from a store to a store and an outcome. *)
Definition M (A : Type) : Type := World -> World * outcome A.

#[global] Instance M_ret : MRet M :=
  fun A (a : A) w => (w, Returned a).

#[global] Instance M_bind : MBind M :=
  fun A B (k : A -> M B) (c : M A) w =>
    match c w with
    | (w', Returned a) => k a w'
    | (w', Thrown message) => (w', Thrown message)
    end.

(** [throw new Error(message)] *)
Definition throw {A : Type} (message : string) : M A :=
  fun w => (w, Thrown message).

(** Record a call to a collaborator. *)
Definition emit (e : Event) : M unit :=
  fun w => (withLog w (log w ++ [e]), Returned tt).

(** ** The dependency graph *)

(** A node is a network node, which points to its record, or a CPU node. *)
Inductive Node : Type :=
| NetworkNode (record : ref)
| CPUNode (id : string).

(** Modelled from the spec: the graph class ([lib/dependency-graph/base-node.js])
    is not among the sources; the specification describes the graph as an
    opaque traversable structure that enumerates all its nodes.  A graph is
    given by the sequence of its nodes in the order in which [traverse]
    visits them. *)
Definition Graph : Type := list Node.

(** Modelled from the spec: [graph.traverse(callback)] calls [callback] once
    on each node of the enumeration, in order; [s] is whatever the callback
    reads and writes. *)
Definition traverse {S : Type} (graph : Graph) (callback : Node -> S -> S) (s : S) : S :=
  fold_left (fun s node => callback node s) graph s.

(** A traversal whose callback writes to the records of the store and to
    a local [local] of the caller. *)
Definition traverseRecords {S : Type} (graph : Graph)
    (callback : Node -> (ref -> NodeRecord.t) * S -> (ref -> NodeRecord.t) * S)
    (local : S) : M S :=
  fun w =>
    let '(h, local') := traverse graph callback (records w, local) in
    (withRecords w h, Returned local').

(** ** The sort of [Array.prototype.sort]

    [items.sort((a, b) => b.wastedBytes - a.wastedBytes)]: a stable sort,
    descending by [wastedBytes].  It is given as an insertion sort; any
    stable sort yields the same array. *)

Fixpoint insertByWastedBytes (item : ByteEfficiencyItem.t)
    (sorted : list ByteEfficiencyItem.t) : list ByteEfficiencyItem.t :=
  match sorted with
  | [] => [item]
  | other :: rest =>
      if Qlt_bool (ByteEfficiencyItem.wastedBytes item) (ByteEfficiencyItem.wastedBytes other)
      then other :: insertByWastedBytes item rest
      else item :: other :: rest
  end.

Definition sortByWastedBytes (items : list ByteEfficiencyItem.t) : list ByteEfficiencyItem.t :=
  foldr insertByWastedBytes [] items.

(** [array.sort(...)]: sorts the array in the store and returns the same
    reference; the computation also hands back the sorted contents. *)
Definition sortInPlace (array : ref) : M (list ByteEfficiencyItem.t) :=
  fun w =>
    let sorted := sortByWastedBytes (arrays w array) in
    (withArrays w (<[array := sorted]> (arrays w)), Returned sorted).

(** ** Data of the audit *)

Inductive GatherMode : Type := navigation | timespan | snapshot.

#[global] Instance GatherMode_eq_dec : EqDecision GatherMode.
Proof. solve_decision. Defined.

Record GatherContext : Type := { gatherMode : GatherMode }.

(** [LH.IcuMessage]: a plain text, or the localised "potential savings of
    ... bytes" message that [str_] builds from [displayValueByteSavings]. *)
Inductive Message : Type :=
| Text (text : string)
| DisplayValueByteSavings (wastedBytes : Q).

Record MetricSavings : Type := { FCP : Q; LCP : Q }.

(** The [options] objects of the two savings computations; a field that is
    [None] is a key the caller did not give. *)
Record Options : Type := {
  label : option string;
  includeLoad : option bool;
  providedWastedBytesByUrl : option (gmap string Q);
}.

Module ByteEfficiencyProduct.

(** What a detector ([audit_]) returns; [items] is a reference to the
    array of items. *)
Record t (Headings : Type) : Type := {
  items : ref;
  wastedBytesByUrl : option (gmap string Q);
  headings : Headings;
  displayValue : option Message;
  explanation : option Message;
  warnings : option (list Message);
  sortedBy : option (list string);
}.

Arguments items {Headings} _.
Arguments wastedBytesByUrl {Headings} _.
Arguments headings {Headings} _.
Arguments displayValue {Headings} _.
Arguments explanation {Headings} _.
Arguments warnings {Headings} _.
Arguments sortedBy {Headings} _.

End ByteEfficiencyProduct.

Module OpportunityDetails.

(** Modelled from the spec: [Audit.makeOpportunityDetails] is defined in
    [audits/audit.js], which is not among the sources; the details are kept
    as the values that the audit passes to it (the ranked item list with
    per-item waste, by reference, and the overall savings). *)
Record t (Headings : Type) : Type := {
  headings : Headings;
  items : ref;
  overallSavingsMs : Q;
  overallSavingsBytes : Q;
  sortedBy : list string;
}.

Arguments headings {Headings} _.
Arguments items {Headings} _.
Arguments overallSavingsMs {Headings} _.
Arguments overallSavingsBytes {Headings} _.
Arguments sortedBy {Headings} _.

End OpportunityDetails.

Module AuditProduct.

(** The object that [createAuditProduct] returns. *)
Record t (Headings : Type) : Type := {
  explanation : option Message;
  warnings : option (list Message);
  displayValue : Message;
  numericValue : Q;
  numericUnit : string;
  score : Q;
  details : OpportunityDetails.t Headings;
  metricSavings : MetricSavings;
}.

Arguments explanation {Headings} _.
Arguments warnings {Headings} _.
Arguments displayValue {Headings} _.
Arguments numericValue {Headings} _.
Arguments numericUnit {Headings} _.
Arguments score {Headings} _.
Arguments details {Headings} _.
Arguments metricSavings {Headings} _.

End AuditProduct.

(** [LH.Audit.Product] as the audit produces it: the two-field object of the
    not-applicable case, or a full product. *)
Inductive Product (Headings : Type) : Type :=
| NotApplicable (score : Q) (notApplicable : bool)
| Opportunity (product : AuditProduct.t Headings).

Arguments NotApplicable {Headings} score notApplicable.
Arguments Opportunity {Headings} product.

(** [Promise.all]: in the model all requests are started and settled in the
    order of the array, and the first failure in that order is the one
    that the caller sees. *)
Definition settle {A : Type} (c : M A) : M (outcome A) :=
  fun w => let '(w', o) := c w in (w', Returned o).

Definition Promise_all4 {A B C D : Type} (a : M A) (b : M B) (c : M C) (d : M D)
    : M (A * B * C * D) :=
  ra ← settle a;
  rb ← settle b;
  rc ← settle c;
  rd ← settle d;
  match ra, rb, rc, rd with
  | Returned x, Returned y, Returned z, Returned u => mret (x, y, z, u)
  | Thrown message, _, _, _
  | _, Thrown message, _, _
  | _, _, Thrown message, _
  | _, _, _, Thrown message => throw message
  end.

(** [reduce((sum, item) => sum + item.wastedBytes, 0)] *)
Definition sumWastedBytes (results : list ByteEfficiencyItem.t) : Q :=
  fold_left (fun sum item => sum + ByteEfficiencyItem.wastedBytes item) results 0.

(** The loop that aggregates the wasted bytes of the items by url:
    [map.set(url, (map.get(url) || 0) + wastedBytes)]. *)
Definition aggregateWastedBytes (results : list ByteEfficiencyItem.t) : gmap string Q :=
  fold_left
    (fun (wastedBytesByUrl : gmap string Q) item =>
       <[ByteEfficiencyItem.url item :=
           default 0 (wastedBytesByUrl !! ByteEfficiencyItem.url item)
           + ByteEfficiencyItem.wastedBytes item]> wastedBytesByUrl)
    results ∅.

(** The callback of the first traversal of [computeWasteWithGraph]: it
    lowers the transfer size of a network node whose url has a truthy entry
    in [wastedBytesByUrl] and remembers the original by [requestId]. *)
Definition applyWastedBytes (wastedBytesByUrl : gmap string Q) (node : Node)
    (s : (ref -> NodeRecord.t) * gmap string Q) : (ref -> NodeRecord.t) * gmap string Q :=
  match node with
  | CPUNode _ => s
  | NetworkNode r =>
      let '(h, originalTransferSizes) := s in
      match wastedBytesByUrl !! NodeRecord.url (h r) with
      | None => s
      | Some wastedBytes =>
          if Qeq_bool wastedBytes 0 then s
          else
            let original := NodeRecord.transferSize (h r) in
            (<[r := NodeRecord.setTransferSize (h r) (Qmax (original - wastedBytes) 0)]> h,
             <[NodeRecord.requestId (h r) := original]> originalTransferSizes)
      end
  end.

(** The callback of the second traversal: it writes back the transfer size
    remembered under the node's [requestId], if there is one. *)
Definition restoreTransferSize (originalTransferSizes : gmap string Q) (node : Node)
    (s : (ref -> NodeRecord.t) * unit) : (ref -> NodeRecord.t) * unit :=
  match node with
  | CPUNode _ => s
  | NetworkNode r =>
      let '(h, u) := s in
      match originalTransferSizes !! NodeRecord.requestId (h r) with
      | None => s
      | Some originalTransferSize =>
          (<[r := NodeRecord.setTransferSize (h r) originalTransferSize]> h, u)
      end
  end.

(** ** The audit class *)

Section ByteEfficiencyAudit.

(** [this.meta.id] of the concrete audit. *)
Variable id : string.

(** Opaque data of the collaborators. *)
Variables NodeTimings ProcessedNavigation Headings : Type.
Variables Trace DevtoolsLog Url Settings : Type.

(** [{}], the settings used when the context has none. *)
Variable noSettings : Settings.

Record SimulationResult : Type := {
  timeInMs : Q;
  nodeTimings : NodeTimings;
}.

(** Modelled from the spec: the simulator
    ([lib/dependency-graph/simulator/simulator.js]) is not among the sources.
    The specification gives its interface, [simulate(graph, {label})] and a
    byte-to-time conversion, and calls its results read-only: a simulation is
    a function of the graph, of the records the graph points to and of the
    label, and it returns a result or throws; it writes nothing to the
    store. *)
Record Simulator : Type := {
  simulation : (ref -> NodeRecord.t) -> Graph -> string -> outcome SimulationResult;
  wastedMsFromWastedBytes : Q -> Q;
}.

(** [simulator.simulate(graph, {label})] *)
Definition simulate (simulator : Simulator) (graph : Graph) (label : string)
    : M SimulationResult :=
  fun w =>
    (withLog w (log w ++ [Simulate label]),
     simulation simulator (records w) graph label).

(** [simulator.computeWastedMsFromWastedBytes(wastedBytes)] *)
Definition computeWastedMsFromWastedBytes (simulator : Simulator) (wastedBytes : Q) : M Q :=
  _ ← emit (ComputeWastedMsFromWastedBytes wastedBytes);
  mret (wastedMsFromWastedBytes simulator wastedBytes).

(** [LanternInteractive.getLastLongTaskEndTime] *)
Variable getLastLongTaskEndTime : NodeTimings -> Q.

(** [LanternFirstContentfulPaint.getPessimisticGraph] and
    [LanternLargestContentfulPaint.getPessimisticGraph]: they select nodes of
    the graph; the nodes selected point to the same records. *)
Variable getPessimisticGraphFCP : Graph -> ProcessedNavigation -> Graph.
Variable getPessimisticGraphLCP : Graph -> ProcessedNavigation -> Graph.

Record WasteWithGraph : Type := {
  savings : Q;
  simulationBeforeChanges : SimulationResult;
  simulationAfterChanges : SimulationResult;
}.

(** [ByteEfficiencyAudit.computeWasteWithGraph] *)
Definition computeWasteWithGraph (results : list ByteEfficiencyItem.t) (graph : Graph)
    (simulator : Simulator) (options : option Options) : M WasteWithGraph :=
  let optionsLabel := default "" (options ≫= label) in
  let provided := options ≫= providedWastedBytesByUrl in
  let beforeLabel := (id +:+ "-" +:+ optionsLabel +:+ "-before")%string in
  let afterLabel := (id +:+ "-" +:+ optionsLabel +:+ "-after")%string in
  simulationBeforeChanges ← simulate simulator graph beforeLabel;
  let wastedBytesByUrl :=
    match provided with
    | Some wastedBytesByUrl => wastedBytesByUrl
    | None => aggregateWastedBytes results
    end in
  originalTransferSizes ←
    traverseRecords graph (applyWastedBytes wastedBytesByUrl) (∅ : gmap string Q);
  simulationAfterChanges ← simulate simulator graph afterLabel;
  _ ← traverseRecords graph (restoreTransferSize originalTransferSizes) tt;
  let savings := timeInMs simulationBeforeChanges - timeInMs simulationAfterChanges in
  mret {| savings := roundedSavings savings;
          simulationBeforeChanges := simulationBeforeChanges;
          simulationAfterChanges := simulationAfterChanges |}.

(** [ByteEfficiencyAudit.computeWasteWithTTIGraph] *)
Definition computeWasteWithTTIGraph (results : list ByteEfficiencyItem.t) (graph : Graph)
    (simulator : Simulator) (options : option Options) : M Q :=
  let optionsIncludeLoad := default true (options ≫= includeLoad) in
  waste ← computeWasteWithGraph results graph simulator
    (Some {| label := Some "overallLoad";
             includeLoad := Some optionsIncludeLoad;
             providedWastedBytesByUrl := options ≫= providedWastedBytesByUrl |});
  let savingsOnOverallLoad := savings waste in
  let savingsOnTTI :=
    getLastLongTaskEndTime (nodeTimings (simulationBeforeChanges waste))
    - getLastLongTaskEndTime (nodeTimings (simulationAfterChanges waste)) in
  let savings :=
    if optionsIncludeLoad then Qmax savingsOnTTI savingsOnOverallLoad else savingsOnTTI in
  mret (roundedSavings savings).

(** [console.log(this.meta.id, metricSavings)] *)
Definition consoleLog (metricSavings : MetricSavings) : M unit :=
  emit (ConsoleLog id (FCP metricSavings) (LCP metricSavings)).

(** [ByteEfficiencyAudit.createAuditProduct] *)
Definition createAuditProduct (result : ByteEfficiencyProduct.t Headings)
    (graph : option Graph) (simulator : Simulator)
    (processedNavigation : option ProcessedNavigation)
    (gatherContext : GatherContext) : M (Product Headings) :=
  results ← sortInPlace (ByteEfficiencyProduct.items result);
  let wastedBytes := sumWastedBytes results in
  '(wastedMs, metricSavings) ←
    match gatherMode gatherContext with
    | navigation =>
        match graph with
        | None => throw "Page dependency graph should always be computed in navigation mode"
        | Some graph =>
            match processedNavigation with
            | None => throw "Processed navigation should always be computed in navigation mode"
            | Some processedNavigation =>
                let provided := ByteEfficiencyProduct.wastedBytesByUrl result in
                wastedMs ← computeWasteWithTTIGraph results graph simulator
                  (Some {| label := None; includeLoad := None;
                           providedWastedBytesByUrl := provided |});
                let fcpGraph := getPessimisticGraphFCP graph processedNavigation in
                let lcpGraph := getPessimisticGraphLCP graph processedNavigation in
                fcp ← computeWasteWithGraph results fcpGraph simulator
                  (Some {| label := Some "fcp"; includeLoad := None;
                           providedWastedBytesByUrl := provided |});
                lcp ← computeWasteWithGraph results lcpGraph simulator
                  (Some {| label := Some "lcp"; includeLoad := None;
                           providedWastedBytesByUrl := provided |});
                mret (wastedMs, {| FCP := savings fcp; LCP := savings lcp |})
            end
        end
    | _ =>
        wastedMs ← computeWastedMsFromWastedBytes simulator wastedBytes;
        mret (wastedMs, {| FCP := 0; LCP := 0 |})
    end;
  let displayValue :=
    match ByteEfficiencyProduct.displayValue result with
    | Some message => message
    | None =>
        if Qeq_bool wastedBytes 0 then Text "" else DisplayValueByteSavings wastedBytes
    end in
  let sortedBy := default ["wastedBytes"%string] (ByteEfficiencyProduct.sortedBy result) in
  let details :=
    {| OpportunityDetails.headings := ByteEfficiencyProduct.headings result;
       OpportunityDetails.items := ByteEfficiencyProduct.items result;
       OpportunityDetails.overallSavingsMs := wastedMs;
       OpportunityDetails.overallSavingsBytes := wastedBytes;
       OpportunityDetails.sortedBy := sortedBy |} in
  _ ← consoleLog metricSavings;
  mret (Opportunity
    {| AuditProduct.explanation := ByteEfficiencyProduct.explanation result;
       AuditProduct.warnings := ByteEfficiencyProduct.warnings result;
       AuditProduct.displayValue := displayValue;
       AuditProduct.numericValue := wastedMs;
       AuditProduct.numericUnit := "millisecond";
       AuditProduct.score := scoreForWastedMs wastedMs;
       AuditProduct.details := details;
       AuditProduct.metricSavings := metricSavings |}).

Record Artifacts : Type := {
  GatherContext_ : GatherContext;
  trace : Trace;
  devtoolsLog : DevtoolsLog;
  URL : Url;
}.

Record Context : Type := { settings : option Settings }.

(** The computed artifacts and the detector hook [audit_] of the concrete
    audit; each may fail. *)
Variable NetworkRecords_request : DevtoolsLog -> option Context -> M (list NetworkRequest.t).
Variable audit_ :
  Artifacts -> list NetworkRequest.t -> option Context -> M (ByteEfficiencyProduct.t Headings).
Variable PageDependencyGraph_request :
  Trace -> DevtoolsLog -> Url -> option Context -> M Graph.
Variable LoadSimulator_request : DevtoolsLog -> Settings -> option Context -> M Simulator.
Variable ProcessedNavigation_request : Trace -> option Context -> M ProcessedNavigation.

(** A call to a collaborator, recorded in the log. *)
Definition call {A : Type} (e : Event) (c : M A) : M A :=
  _ ← emit e; c.

(** [record => record.transferSize] as a condition *)
Definition hasTransferSize (record : NetworkRequest.t) : bool :=
  match NetworkRequest.transferSize record with
  | Some size => Js.truthy size
  | None => false
  end.

(** [ByteEfficiencyAudit.audit] *)
Definition audit (artifacts : Artifacts) (context : option Context) : M (Product Headings) :=
  let gatherContext := GatherContext_ artifacts in
  let contextSettings := default noSettings (context ≫= settings) in
  networkRecords ←
    call NetworkRecordsRequest (NetworkRecords_request (devtoolsLog artifacts) context);
  let hasContentfulRecords := existsb hasTransferSize networkRecords in
  if negb hasContentfulRecords && bool_decide (gatherMode gatherContext = timespan) then
    mret (NotApplicable 1 true)
  else
    '(result, graph, simulator, processedNavigation) ←
      Promise_all4
        (call DetectorRun (audit_ artifacts networkRecords context))
        (if bool_decide (gatherMode gatherContext = navigation) then
           graph ← call PageDependencyGraphRequest
             (PageDependencyGraph_request (trace artifacts) (devtoolsLog artifacts)
                (URL artifacts) context);
           mret (Some graph)
         else mret None)
        (call LoadSimulatorRequest
           (LoadSimulator_request (devtoolsLog artifacts) contextSettings context))
        (if bool_decide (gatherMode gatherContext = navigation) then
           processedNavigation ← call ProcessedNavigationRequest
             (ProcessedNavigation_request (trace artifacts) context);
           mret (Some processedNavigation)
         else mret None);
    createAuditProduct result graph simulator processedNavigation gatherContext.

(** ** Vocabulary of the statements *)

(** A size that counts as not measured: [undefined], 0 or NaN. *)
Definition unmeasured (size : option Js.number) : Prop :=
  match size with
  | None | Some Js.NaN => True
  | Some (Js.Num q) => q == 0
  | Some _ => False
  end.



(** [r] is an integer nearest to [x]. *)
Definition nearestInteger (x : Q) (r : Js.number) : Prop :=
  exists n : Z, r = Js.Num (inject_Z n) /\ x - 0.5 < inject_Z n /\ inject_Z n <= x + 0.5.

(** The records of the network nodes of a graph, in traversal order. *)
Fixpoint networkRefs (graph : Graph) : list ref :=
  match graph with
  | [] => []
  | NetworkNode r :: rest => r :: networkRefs rest
  | CPUNode _ :: rest => networkRefs rest
  end.

(** The request identifiers of the network nodes of a graph, read in the
    store [h]. *)
Definition requestIds (h : ref -> NodeRecord.t) (graph : Graph) : list string :=
  (fun r => NodeRecord.requestId (h r)) <$> networkRefs graph.

(** The effective wasted-bytes-by-url map of a call: the provided map if
    there is one, else the wasted bytes of the items summed by url. *)
Definition effectiveWastedBytesByUrl (results : list ByteEfficiencyItem.t)
    (options : option Options) : gmap string Q :=
  match options ≫= providedWastedBytesByUrl with
  | Some wastedBytesByUrl => wastedBytesByUrl
  | None => aggregateWastedBytes results
  end.

(** The label of the simulation before ([suffix = "before"]) or after the
    changes. *)
Definition simulationLabel (options : option Options) (suffix : string) : string :=
  (id +:+ "-" +:+ default "" (options ≫= label) +:+ "-" +:+ suffix)%string.

(** A simulator that returns on every input. *)
Definition neverThrows (simulator : Simulator) : Prop :=
  forall h graph label, exists result, simulation simulator h graph label = Returned result.

(** A simulator whose result depends on the graph and its records only. *)
Definition deterministic (simulator : Simulator) : Prop :=
  forall h graph label1 label2,
    simulation simulator h graph label1 = simulation simulator h graph label2.

(** [x] is a non-negative multiple of 10. *)
Definition multipleOf10 (x : Q) : Prop :=
  exists n : Z, (0 <= n)%Z /\ x = inject_Z n * 10.

(** The options that [computeWasteWithTTIGraph] passes on:
    [{...options, label: 'overallLoad'}]. *)
Definition overallLoadOptions (options : option Options) : option Options :=
  Some {| label := Some "overallLoad";
          includeLoad := Some (default true (options ≫= includeLoad));
          providedWastedBytesByUrl := options ≫= providedWastedBytesByUrl |}.

(** [a] may stand before [b] in an array that is ranked by wasted bytes. *)
Definition descendingByWastedBytes (a b : ByteEfficiencyItem.t) : Prop :=
  ByteEfficiencyItem.wastedBytes b <= ByteEfficiencyItem.wastedBytes a.

End ByteEfficiencyAudit.

Arguments Build_SimulationResult {NodeTimings} timeInMs nodeTimings.
Arguments timeInMs {NodeTimings} _.
Arguments nodeTimings {NodeTimings} _.
Arguments Build_Simulator {NodeTimings} simulation wastedMsFromWastedBytes.
Arguments simulation {NodeTimings} _ _ _ _.
Arguments wastedMsFromWastedBytes {NodeTimings} _ _.
Arguments simulate {NodeTimings} simulator graph label _.
Arguments computeWastedMsFromWastedBytes {NodeTimings} simulator wastedBytes _.
Arguments Build_WasteWithGraph {NodeTimings} savings simulationBeforeChanges
  simulationAfterChanges.
Arguments savings {NodeTimings} _.
Arguments simulationBeforeChanges {NodeTimings} _.
Arguments simulationAfterChanges {NodeTimings} _.
Arguments computeWasteWithGraph id {NodeTimings} results graph simulator options _.
Arguments computeWasteWithTTIGraph id {NodeTimings} getLastLongTaskEndTime
  results graph simulator options _.
Arguments createAuditProduct id {NodeTimings ProcessedNavigation Headings}
  getLastLongTaskEndTime getPessimisticGraphFCP getPessimisticGraphLCP
  result graph simulator processedNavigation gatherContext _.
Arguments Build_Artifacts {Trace DevtoolsLog Url} _ _ _ _.
Arguments GatherContext_ {Trace DevtoolsLog Url} _.
Arguments trace {Trace DevtoolsLog Url} _.
Arguments devtoolsLog {Trace DevtoolsLog Url} _.
Arguments URL {Trace DevtoolsLog Url} _.
Arguments Build_Context {Settings} _.
Arguments settings {Settings} _.
Arguments audit id {NodeTimings ProcessedNavigation Headings Trace DevtoolsLog Url Settings}
  noSettings getLastLongTaskEndTime getPessimisticGraphFCP getPessimisticGraphLCP
  NetworkRecords_request audit_ PageDependencyGraph_request LoadSimulator_request
  ProcessedNavigation_request artifacts context _.
Arguments neverThrows {NodeTimings} simulator.
Arguments deterministic {NodeTimings} simulator.

(** * A page with two resources

    The store holds a script of 12500 bytes and a stylesheet of 3000 bytes;
    the graph has a network node for each and one CPU task.  The simulator
    of the example takes 1 ms per 125 bytes transferred. *)

Module Page.

Definition script : NodeRecord.t :=
  {| NodeRecord.requestId := "1000.1";
     NodeRecord.url := "https://example.com/app.js";
     NodeRecord.transferSize := 12500 |}.

Definition stylesheet : NodeRecord.t :=
  {| NodeRecord.requestId := "1000.2";
     NodeRecord.url := "https://example.com/style.css";
     NodeRecord.transferSize := 3000 |}.

Definition pageRecords : ref -> NodeRecord.t :=
  fun r => match r with
           | O => script
           | _ => stylesheet
           end.

Definition graph : Graph := [NetworkNode 0%nat; CPUNode "evaluate"; NetworkNode 1%nat].

(** Three findings of a detector, not in ranking order. *)
Definition findings : list ByteEfficiencyItem.t :=
  [ {| ByteEfficiencyItem.url := "https://example.com/style.css";
       ByteEfficiencyItem.wastedBytes := 1000 |};
    {| ByteEfficiencyItem.url := "https://example.com/app.js";
       ByteEfficiencyItem.wastedBytes := 5000 |};
    {| ByteEfficiencyItem.url := "https://example.com/font.woff";
       ByteEfficiencyItem.wastedBytes := 2000 |} ].

Definition world : World :=
  {| records := pageRecords; arrays := fun _ => findings; log := [] |}.

Definition totalTransferSize (h : ref -> NodeRecord.t) (graph : Graph) : Q :=
  foldr (fun r total => NodeRecord.transferSize (h r) + total) 0 (networkRefs graph).

(** A simulator that always returns. *)
Definition simulator : Simulator unit :=
  {| simulation := fun h graph _ =>
       Returned {| timeInMs := totalTransferSize h graph / 125; nodeTimings := tt |};
     wastedMsFromWastedBytes := fun wastedBytes => wastedBytes / 125 |}.

(** A simulator that fails on a graph with a response of no bytes. *)
Definition fragileSimulator : Simulator unit :=
  {| simulation := fun h graph _ =>
       if existsb (fun r => Qeq_bool (NodeRecord.transferSize (h r)) 0) (networkRefs graph)
       then Thrown "empty response"
       else Returned {| timeInMs := totalTransferSize h graph / 125; nodeTimings := tt |};
     wastedMsFromWastedBytes := fun wastedBytes => wastedBytes / 125 |}.

(** A detector result that refers to the array 0 of the store. *)
Definition detected : ByteEfficiencyProduct.t unit :=
  {| ByteEfficiencyProduct.items := 0%nat;
     ByteEfficiencyProduct.wastedBytesByUrl := None;
     ByteEfficiencyProduct.headings := tt;
     ByteEfficiencyProduct.displayValue := None;
     ByteEfficiencyProduct.explanation := None;
     ByteEfficiencyProduct.warnings := None;
     ByteEfficiencyProduct.sortedBy := None |}.

(** A network record of a document of 4000 bytes on the wire whose
    uncompressed size is unknown. *)
Definition document : NetworkRequest.t :=
  {| NetworkRequest.resourceType := Some "Document";
     NetworkRequest.transferSize := Some (Js.Num 4000);
     NetworkRequest.resourceSize := Some (Js.Num 0) |}.

(** Network records without any transfer size. *)
Definition idleRecords : list NetworkRequest.t :=
  [ {| NetworkRequest.resourceType := Some "Other";
       NetworkRequest.transferSize := None;
       NetworkRequest.resourceSize := None |};
    {| NetworkRequest.resourceType := None;
       NetworkRequest.transferSize := Some (Js.Num 0);
       NetworkRequest.resourceSize := Some (Js.Num 0) |} ].

Definition timespanArtifacts : Artifacts unit unit unit :=
  Build_Artifacts {| gatherMode := timespan |} tt tt tt.

(** A document that compresses to a quarter of its size. *)
Definition compressedDocument : NetworkRequest.t :=
  {| NetworkRequest.resourceType := Some "Document";
     NetworkRequest.transferSize := Some (Js.Num 4000);
     NetworkRequest.resourceSize := Some (Js.Num 16000) |}.


Definition navigationArtifacts : Artifacts unit unit unit :=
  Build_Artifacts {| gatherMode := navigation |} tt tt tt.

Definition snapshotArtifacts : Artifacts unit unit unit :=
  Build_Artifacts {| gatherMode := snapshot |} tt tt tt.

(** The page with its findings already ranked. *)
Definition rankedWorld : World :=
  withArrays world (fun _ => sortByWastedBytes findings).

(** A store in which the stylesheet carries the request identifier of the
    script. *)
Definition twinWorld : World :=
  withRecords world
    (fun r => match r with
              | O => script
              | _ => {| NodeRecord.requestId := "1000.1";
                        NodeRecord.url := "https://example.com/style.css";
                        NodeRecord.transferSize := 3000 |}
              end).

End Page.

(** * Vocabulary of further statements *)

(** The factor by which [estimateTransferSize] scales the bytes of a
    resource of which it has no network record. *)
Definition heuristicFactor (resourceType : ResourceType) : Q :=
  if isResourceType resourceType "Stylesheet" then 0.2
  else if isResourceType resourceType "Script" || isResourceType resourceType "Document"
       then 0.33
  else 0.5.

(** The wasted bytes that the items attribute to [url], summed. *)
Definition wastedBytesOf (url : string) (results : list ByteEfficiencyItem.t) : Q :=
  foldr (fun item total =>
           if bool_decide (ByteEfficiencyItem.url item = url)
           then ByteEfficiencyItem.wastedBytes item + total
           else total)
        0 results.

(** The wasted bytes of all items, summed from the right. *)
Definition totalWastedBytes (results : list ByteEfficiencyItem.t) : Q :=
  foldr (fun item total => ByteEfficiencyItem.wastedBytes item + total) 0 results.

(** The items of an array whose wasted bytes are [wastedBytes], in the
    order of the array. *)
Definition itemsWithWastedBytes (wastedBytes : Q) (items : list ByteEfficiencyItem.t)
    : list ByteEfficiencyItem.t :=
  filter (fun item => Qeq_bool (ByteEfficiencyItem.wastedBytes item) wastedBytes = true) items.


(** The product that [createAuditProduct] assembles once it has ranked the
    items ([results]) and computed the wasted time and the metric savings. *)
Definition assembledProduct {Headings : Type} (result : ByteEfficiencyProduct.t Headings)
    (results : list ByteEfficiencyItem.t) (wastedMs : Q) (metricSavings : MetricSavings)
    : AuditProduct.t Headings :=
  let wastedBytes := sumWastedBytes results in
  {| AuditProduct.explanation := ByteEfficiencyProduct.explanation result;
     AuditProduct.warnings := ByteEfficiencyProduct.warnings result;
     AuditProduct.displayValue :=
       match ByteEfficiencyProduct.displayValue result with
       | Some message => message
       | None =>
           if Qeq_bool wastedBytes 0 then Text "" else DisplayValueByteSavings wastedBytes
       end;
     AuditProduct.numericValue := wastedMs;
     AuditProduct.numericUnit := "millisecond";
     AuditProduct.score := scoreForWastedMs wastedMs;
     AuditProduct.details :=
       {| OpportunityDetails.headings := ByteEfficiencyProduct.headings result;
          OpportunityDetails.items := ByteEfficiencyProduct.items result;
          OpportunityDetails.overallSavingsMs := wastedMs;
          OpportunityDetails.overallSavingsBytes := wastedBytes;
          OpportunityDetails.sortedBy :=
            default ["wastedBytes"%string] (ByteEfficiencyProduct.sortedBy result) |};
     AuditProduct.metricSavings := metricSavings |}.

(** The options of the three savings computations of [createAuditProduct]. *)
Definition metricOptions {Headings : Type} (result : ByteEfficiencyProduct.t Headings)
    (label : option string) : option Options :=
  Some {| label := label; includeLoad := None;
          providedWastedBytesByUrl := ByteEfficiencyProduct.wastedBytesByUrl result |}.


Module Base.

(** [ByteEfficiencyAudit.audit_] as the base class has it:
    [throw new Error('audit_ unimplemented')]. *)
Definition audit_ {Trace DevtoolsLog Url Settings Headings : Type}
    (artifacts : Artifacts Trace DevtoolsLog Url) (networkRecords : list NetworkRequest.t)
    (context : option (Context Settings)) : M (ByteEfficiencyProduct.t Headings) :=
  throw "audit_ unimplemented".

End Base.

(** * Properties

    The statements are about any audit: any identifier, any collaborators. *)

Section Properties.

Context (id : string).
Context {NodeTimings ProcessedNavigation Headings Trace DevtoolsLog Url Settings : Type}.
Context (noSettings : Settings).
Context (getLastLongTaskEndTime : NodeTimings -> Q).
Context (getPessimisticGraphFCP getPessimisticGraphLCP : Graph -> ProcessedNavigation -> Graph).
Context (NetworkRecords_request :
  DevtoolsLog -> option (Context Settings) -> M (list NetworkRequest.t)).
Context (audit_ :
  Artifacts Trace DevtoolsLog Url -> list NetworkRequest.t -> option (Context Settings) ->
  M (ByteEfficiencyProduct.t Headings)).
Context (PageDependencyGraph_request :
  Trace -> DevtoolsLog -> Url -> option (Context Settings) -> M Graph).
Context (LoadSimulator_request :
  DevtoolsLog -> Settings -> option (Context Settings) -> M (Simulator NodeTimings)).
Context (ProcessedNavigation_request :
  Trace -> option (Context Settings) -> M ProcessedNavigation).

Local Abbreviation Simulator := (Simulator NodeTimings).
Local Abbreviation SimulationResult := (SimulationResult NodeTimings).
Local Abbreviation Artifacts := (Artifacts Trace DevtoolsLog Url).
Local Abbreviation Context := (Context Settings).
Local Abbreviation simulationLabel := (simulationLabel id).
Local Abbreviation computeWasteWithGraph := (computeWasteWithGraph id).
Local Abbreviation computeWasteWithTTIGraph :=
  (computeWasteWithTTIGraph id getLastLongTaskEndTime).
Local Abbreviation createAuditProduct :=
  (createAuditProduct id getLastLongTaskEndTime getPessimisticGraphFCP
     getPessimisticGraphLCP).
Local Abbreviation audit :=
  (audit id noSettings getLastLongTaskEndTime getPessimisticGraphFCP
     getPessimisticGraphLCP NetworkRecords_request audit_ PageDependencyGraph_request
     LoadSimulator_request ProcessedNavigation_request).


(** ** The score curve *)

Lemma Qle_bool_false (a b : Q) : Qle_bool a b = false -> b < a.
Proof.
  intros H. apply Qnot_le_lt. intros Hle.
  apply Qle_bool_iff in Hle. congruence.
Qed.

Lemma Qlt_bool_true (a b : Q) : Qlt_bool a b = true -> a < b.
Proof.
  unfold Qlt_bool. intros H. apply Qle_bool_false.
  destruct (Qle_bool b a); [discriminate | reflexivity].
Qed.

Lemma Qlt_bool_false (a b : Q) : Qlt_bool a b = false -> b <= a.
Proof.
  unfold Qlt_bool. intros H. apply Qle_bool_iff.
  destruct (Qle_bool b a); [reflexivity | discriminate].
Qed.

(** The four pieces of the curve in closed form. *)
Lemma scoreForWastedMs_pieces (x : Q) :
  (x <= 0 /\ scoreForWastedMs x == 1)
  \/ (0 < x < 300 /\ scoreForWastedMs x == 1 - x * (1 # 1200))
  \/ (300 <= x < 750 /\ scoreForWastedMs x == 0.75 - (x - 300) * (1 # 1800))
  \/ (750 <= x <= 5000 /\ scoreForWastedMs x == 0.5 - (x - 750) * (1 # 8500))
  \/ (5000 <= x /\ scoreForWastedMs x == 0).
Proof.
  unfold scoreForWastedMs, linearInterpolation,
    WASTED_MS_FOR_AVERAGE, WASTED_MS_FOR_POOR, WASTED_MS_FOR_SCORE_OF_ZERO.
  destruct (Qle_bool x 0) eqn:H0.
  { left. apply Qle_bool_iff in H0. split; [assumption | reflexivity]. }
  apply Qle_bool_false in H0.
  destruct (Qlt_bool x 300) eqn:H1.
  { right; left. apply Qlt_bool_true in H1. split; [lra | field]. }
  apply Qlt_bool_false in H1.
  destruct (Qlt_bool x 750) eqn:H2.
  { right; right; left. apply Qlt_bool_true in H2. split; [lra | field]. }
  apply Qlt_bool_false in H2.
  assert (Hline : 0.5 + (x - 750) * ((0 - 0.5) / (5000 - 750)) == 0.5 - (x - 750) * (1 # 8500))
    by field.
  destruct (Qlt_le_dec 5000 x) as [H3 | H3].
  - right; right; right; right. split; [lra |].
    rewrite Hline. apply Q.max_l. lra.
  - right; right; right; left. split; [lra |].
    rewrite Hline. apply Q.max_r. lra.
Qed.

(** C3. [scoreForWastedMs] is 1 for every [wastedMs <= 0], 0.75 at 300, 0.5
    at 750 and 0 from 5000 on; it never increases when [wastedMs] grows, and
    its value always lies between 0 and 1. *)
Theorem scoreForWastedMs_curve :
  (forall wastedMs, wastedMs <= 0 -> scoreForWastedMs wastedMs == 1)
  /\ scoreForWastedMs 300 == 0.75
  /\ scoreForWastedMs 750 == 0.5
  /\ (forall wastedMs, 5000 <= wastedMs -> scoreForWastedMs wastedMs == 0)
  /\ (forall a b, a <= b -> scoreForWastedMs b <= scoreForWastedMs a)
  /\ (forall wastedMs, 0 <= scoreForWastedMs wastedMs <= 1).
Proof.
  repeat apply conj.
  - intros x Hx. destruct (scoreForWastedMs_pieces x) as [H | [H | [H | [H | H]]]]; lra.
  - destruct (scoreForWastedMs_pieces 300) as [H | [H | [H | [H | H]]]]; lra.
  - destruct (scoreForWastedMs_pieces 750) as [H | [H | [H | [H | H]]]]; lra.
  - intros x Hx. destruct (scoreForWastedMs_pieces x) as [H | [H | [H | [H | H]]]]; lra.
  - intros a b Hab.
    destruct (scoreForWastedMs_pieces a) as [Ha | [Ha | [Ha | [Ha | Ha]]]];
      destruct (scoreForWastedMs_pieces b) as [Hb | [Hb | [Hb | [Hb | Hb]]]]; lra.
  - intros x. destruct (scoreForWastedMs_pieces x) as [H | [H | [H | [H | H]]]]; lra.
Qed.

(** ** The transfer size estimate *)



Lemma compressionRatio_usable (q : Q) :
  0 < q ->
  Js.orElse (Some (Js.Num q)) (Js.Num 0) = Js.Num q
  /\ Js.isFinite (Js.Num q) && Js.gtb (Js.Num q) (Js.Num 0) = true.
Proof.
  intros Hq. simpl. split.
  - destruct (Qeq_bool q 0) eqn:E; [| reflexivity].
    apply Qeq_bool_iff in E. lra.
  - apply negb_true_iff. destruct (Qle_bool q 0) eqn:E; [| reflexivity].
    apply Qle_bool_iff in E. lra.
Qed.


Lemma round_nearestInteger (x : Q) : nearestInteger x (Js.round (Js.Num x)).
Proof.
  exists (Qfloor (x + 0.5)). split; [reflexivity |].
  pose proof (Qfloor_le (x + 0.5)) as Hle.
  pose proof (Qlt_floor (x + 0.5)) as Hlt.
  rewrite inject_Z_plus in Hlt. change (inject_Z 1) with 1 in Hlt.
  split; lra.
Qed.

Lemma round_nonneg (x : Q) : 0 <= x -> Js.le (Js.Num 0) (Js.round (Js.Num x)).
Proof.
  intros Hx. unfold Js.round, Js.le.
  change 0 with (inject_Z 0) at 1. rewrite <- Zle_Qle.
  apply (Qfloor_resp_le 0). lra.
Qed.

Lemma estimate_nonneg (totalBytes : Js.number) (factor : Q) :
  0 < factor -> Js.le (Js.Num 0) totalBytes ->
  Js.le (Js.Num 0) (Js.round (Js.mul totalBytes (Js.Num factor))).
Proof.
  intros Hf. destruct totalBytes as [q | | |]; cbn [Js.le Js.mul]; intros Hq; try tauto.
  - apply round_nonneg. nra.
  - cbn [Js.sign]. apply Qgt_alt in Hf. rewrite Hf. exact I.
Qed.

(** C6. Without a network record the estimate is [totalBytes] times 0.2 for
    a stylesheet, 0.33 for a script or a document and 0.5 for anything else,
    rounded to the nearest integer; 1000 bytes give 200, 330 and 500; and
    the estimate of a non-negative [totalBytes] is non-negative. *)
Theorem estimateTransferSize_without_record :
  (forall totalBytes resourceType,
      estimateTransferSize None totalBytes resourceType
      = Js.round (Js.mul totalBytes (Js.Num
          (if bool_decide (resourceType = Some "Stylesheet") then 0.2
           else if bool_decide (resourceType = Some "Script"
                                \/ resourceType = Some "Document") then 0.33
           else 0.5))))
  /\ (forall totalBytes : Q,
        nearestInteger (totalBytes * 0.2)
          (estimateTransferSize None (Js.Num totalBytes) (Some "Stylesheet"))
        /\ nearestInteger (totalBytes * 0.33)
          (estimateTransferSize None (Js.Num totalBytes) (Some "Script"))
        /\ nearestInteger (totalBytes * 0.33)
          (estimateTransferSize None (Js.Num totalBytes) (Some "Document"))
        /\ forall resourceType,
            resourceType <> Some "Stylesheet" ->
            resourceType <> Some "Script" ->
            resourceType <> Some "Document" ->
            nearestInteger (totalBytes * 0.5)
              (estimateTransferSize None (Js.Num totalBytes) resourceType))
  /\ estimateTransferSize None (Js.Num 1000) (Some "Stylesheet") = Js.Num 200
  /\ estimateTransferSize None (Js.Num 1000) (Some "Script") = Js.Num 330
  /\ estimateTransferSize None (Js.Num 1000) None = Js.Num 500
  /\ (forall totalBytes resourceType,
        Js.le (Js.Num 0) totalBytes ->
        Js.le (Js.Num 0) (estimateTransferSize None totalBytes resourceType)).
Proof.
  assert (Hform : forall totalBytes resourceType,
      estimateTransferSize None totalBytes resourceType
      = Js.round (Js.mul totalBytes (Js.Num
          (if bool_decide (resourceType = Some "Stylesheet") then 0.2
           else if bool_decide (resourceType = Some "Script"
                                \/ resourceType = Some "Document") then 0.33
           else 0.5)))).
  { intros t rt. unfold estimateTransferSize, isResourceType.
    destruct (bool_decide (rt = Some "Stylesheet")); [reflexivity |].
    rewrite <- bool_decide_or.
    destruct (bool_decide (rt = Some "Script" \/ rt = Some "Document")); reflexivity. }
  split; [exact Hform |].
  split.
  { intros q. repeat apply conj.
    - apply (round_nearestInteger (q * 0.2)).
    - apply (round_nearestInteger (q * 0.33)).
    - apply (round_nearestInteger (q * 0.33)).
    - intros rt H1 H2 H3. rewrite Hform.
      rewrite (bool_decide_eq_false_2 _ H1).
      rewrite bool_decide_eq_false_2 by tauto.
      apply (round_nearestInteger (q * 0.5)). }
  split; [reflexivity |]. split; [reflexivity |]. split; [reflexivity |].
  intros t rt Ht. rewrite Hform.
  apply estimate_nonneg; [| exact Ht].
  destruct (bool_decide (rt = Some "Stylesheet")); [reflexivity |].
  destruct (bool_decide (rt = Some "Script" \/ rt = Some "Document")); reflexivity.
Qed.

(** ** Rounding of savings *)

Lemma roundedSavings_multipleOf10 (savings : Q) : multipleOf10 (roundedSavings savings).
Proof.
  exists (Qfloor (Qmax savings 0 / 10 + 0.5)). split; [| reflexivity].
  apply (Qfloor_resp_le 0).
  pose proof (Q.le_max_r savings 0) as Hmax.
  assert (Hdiv : Qmax savings 0 / 10 == Qmax savings 0 * (1 # 10)) by field.
  set (y := Qmax savings 0 / 10) in *. lra.
Qed.


Lemma roundedSavings_zero (savings : Q) : savings <= 0 -> roundedSavings savings == 0.
Proof.
  intros H. unfold roundedSavings, Math_round.
  assert (Hz : Qmax savings 0 / 10 + 0.5 == 0.5).
  { rewrite (Q.max_r savings 0 H). reflexivity. }
  assert (Hf : Qfloor (Qmax savings 0 / 10 + 0.5) = 0%Z).
  { transitivity (Qfloor 0.5); [| reflexivity].
    apply Z.le_antisymm; apply Qfloor_resp_le; rewrite Hz; apply Qle_refl. }
  rewrite Hf. reflexivity.
Qed.

(** ** The two traversals of [computeWasteWithGraph] *)

Lemma traverse_cons {S : Type} (node : Node) (graph : Graph)
    (callback : Node -> S -> S) (s : S) :
  traverse (node :: graph) callback s = traverse graph callback (callback node s).
Proof. reflexivity. Qed.

Lemma setTransferSize_fields (record : NodeRecord.t) (value : Q) :
  NodeRecord.requestId (NodeRecord.setTransferSize record value) = NodeRecord.requestId record
  /\ NodeRecord.url (NodeRecord.setTransferSize record value) = NodeRecord.url record
  /\ NodeRecord.transferSize (NodeRecord.setTransferSize record value) = value.
Proof. destruct record; repeat split. Qed.

Lemma setTransferSize_same (record record' : NodeRecord.t) :
  NodeRecord.requestId record' = NodeRecord.requestId record ->
  NodeRecord.url record' = NodeRecord.url record ->
  NodeRecord.setTransferSize record' (NodeRecord.transferSize record) = record.
Proof. destruct record, record'; simpl; intros -> ->; reflexivity. Qed.

(** Writing a transfer size keeps the identifier and the url of every record. *)
Lemma insert_setTransferSize_fields (h : ref -> NodeRecord.t) (r : ref) (value : Q) (r' : ref) :
  NodeRecord.requestId ((<[r := NodeRecord.setTransferSize (h r) value]> h) r')
  = NodeRecord.requestId (h r')
  /\ NodeRecord.url ((<[r := NodeRecord.setTransferSize (h r) value]> h) r')
     = NodeRecord.url (h r').
Proof.
  destruct (decide (r = r')) as [<- | Hne].
  - rewrite fn_lookup_insert. destruct (h r); split; reflexivity.
  - rewrite fn_lookup_insert_ne by exact Hne. split; reflexivity.
Qed.

(** One step of the first traversal, by cases. *)
Lemma applyWastedBytes_step (wastedBytesByUrl : gmap string Q) (r : ref)
    (h : ref -> NodeRecord.t) (o : gmap string Q) :
  (applyWastedBytes wastedBytesByUrl (NetworkNode r) (h, o) = (h, o)
   /\ (wastedBytesByUrl !! NodeRecord.url (h r) = None
       \/ exists wastedBytes, wastedBytesByUrl !! NodeRecord.url (h r) = Some wastedBytes
                              /\ wastedBytes == 0))
  \/ (exists wastedBytes,
        wastedBytesByUrl !! NodeRecord.url (h r) = Some wastedBytes
        /\ ~ wastedBytes == 0
        /\ applyWastedBytes wastedBytesByUrl (NetworkNode r) (h, o)
           = (<[r := NodeRecord.setTransferSize (h r)
                       (Qmax (NodeRecord.transferSize (h r) - wastedBytes) 0)]> h,
              <[NodeRecord.requestId (h r) := NodeRecord.transferSize (h r)]> o)).
Proof.
  unfold applyWastedBytes.
  destruct (wastedBytesByUrl !! NodeRecord.url (h r)) as [wastedBytes |] eqn:Hw.
  - destruct (Qeq_bool wastedBytes 0) eqn:Hz.
    + left. split; [reflexivity |]. right. exists wastedBytes.
      split; [reflexivity | apply Qeq_bool_iff; exact Hz].
    + right. exists wastedBytes. split; [reflexivity |]. split; [| reflexivity].
      intros Heq. apply Qeq_bool_iff in Heq. congruence.
  - left. split; [reflexivity | left; reflexivity].
Qed.

Lemma requestIds_insert (h : ref -> NodeRecord.t) (r : ref) (value : Q) (graph : Graph) :
  requestIds (<[r := NodeRecord.setTransferSize (h r) value]> h) graph = requestIds h graph.
Proof.
  unfold requestIds. apply list_fmap_ext. intros _ r' _.
  apply insert_setTransferSize_fields.
Qed.

Lemma requestId_elem_of (h : ref -> NodeRecord.t) (graph : Graph) (r : ref) :
  r ∈ networkRefs graph -> NodeRecord.requestId (h r) ∈ requestIds h graph.
Proof.
  intros Hr. unfold requestIds.
  apply (list_elem_of_fmap_2 (fun r => NodeRecord.requestId (h r))). exact Hr.
Qed.

(** The first traversal, started from any store and any table of originals
    that has no entry for the nodes still to be visited. *)
Lemma applyWastedBytes_pass (wastedBytesByUrl : gmap string Q) (graph : Graph) :
  forall (h : ref -> NodeRecord.t) (o : gmap string Q) h' o',
    traverse graph (applyWastedBytes wastedBytesByUrl) (h, o) = (h', o') ->
    NoDup (requestIds h graph) ->
    (forall r, r ∈ networkRefs graph -> o !! NodeRecord.requestId (h r) = None) ->
    (forall r, NodeRecord.requestId (h' r) = NodeRecord.requestId (h r)
               /\ NodeRecord.url (h' r) = NodeRecord.url (h r))
    /\ (forall r, r ∉ networkRefs graph -> h' r = h r)
    /\ (forall k, k ∉ requestIds h graph -> o' !! k = o !! k)
    /\ (forall r, r ∈ networkRefs graph ->
          o' !! NodeRecord.requestId (h r) = Some (NodeRecord.transferSize (h r))
          \/ (o' !! NodeRecord.requestId (h r) = None /\ h' r = h r)).
Proof.
  induction graph as [| [r0 | c] graph IH]; intros h o h' o' Hrun Hnodup Hfresh.
  - injection Hrun as <- <-. repeat split; try reflexivity.
    intros r Hr. apply elem_of_nil in Hr. contradiction.
  - rewrite traverse_cons in Hrun.
    change (networkRefs (NetworkNode r0 :: graph)) with (r0 :: networkRefs graph) in *.
    change (requestIds h (NetworkNode r0 :: graph))
      with (NodeRecord.requestId (h r0) :: requestIds h graph) in *.
    apply list.NoDup_cons in Hnodup as [Hhead Htail].
    assert (Hne : forall r, r ∈ networkRefs graph -> r <> r0).
    { intros r Hr ->. apply Hhead. apply requestId_elem_of. exact Hr. }
    destruct (applyWastedBytes_step wastedBytesByUrl r0 h o)
      as [[Hstep _] | (wastedBytes & _ & _ & Hstep)]; rewrite Hstep in Hrun.
    + destruct (IH h o h' o' Hrun Htail) as (Hf & Hframe & Hkeep & Hnodes).
      { intros r Hr. apply Hfresh. right. exact Hr. }
      split; [exact Hf |]. split; [| split].
      * intros r Hr. apply Hframe. intros Hin. apply Hr. right. exact Hin.
      * intros k Hk. apply Hkeep. intros Hin. apply Hk. right. exact Hin.
      * intros r Hr. destruct (decide (r ∈ networkRefs graph)) as [Hin | Hnotin].
        { apply Hnodes. exact Hin. }
        apply elem_of_cons in Hr as [-> | Hin]; [| contradiction].
        right. split.
        -- rewrite (Hkeep _ Hhead). apply Hfresh. left.
        -- apply Hframe. exact Hnotin.
    + set (h1 := <[r0 := NodeRecord.setTransferSize (h r0)
                          (Qmax (NodeRecord.transferSize (h r0) - wastedBytes) 0)]> h) in *.
      assert (Hfields : forall r, NodeRecord.requestId (h1 r) = NodeRecord.requestId (h r)
                                  /\ NodeRecord.url (h1 r) = NodeRecord.url (h r)).
      { intros r. apply insert_setTransferSize_fields. }
      assert (Hids : requestIds h1 graph = requestIds h graph)
        by apply requestIds_insert.
      destruct (IH h1 _ h' o' Hrun) as (Hf & Hframe & Hkeep & Hnodes).
      { rewrite Hids. exact Htail. }
      { intros r Hr. destruct (Hfields r) as [-> _].
        rewrite lookup_insert_ne.
        - apply Hfresh. right. exact Hr.
        - intros Heq. apply Hhead. rewrite Heq. apply requestId_elem_of. exact Hr. }
      rewrite Hids in Hkeep.
      split; [| split; [| split]].
      * intros r. destruct (Hf r) as [-> ->]. apply Hfields.
      * intros r Hr. rewrite Hframe.
        -- unfold h1. apply fn_lookup_insert_ne. intros ->. apply Hr. left.
        -- intros Hin. apply Hr. right. exact Hin.
      * intros k Hk. rewrite Hkeep.
        -- apply lookup_insert_ne. intros Heq. apply Hk. rewrite <- Heq. left.
        -- intros Hin. apply Hk. right. exact Hin.
      * intros r Hr. destruct (decide (r ∈ networkRefs graph)) as [Hin | Hnotin].
        { assert (Hsame : h1 r = h r).
          { unfold h1. apply fn_lookup_insert_ne. intros ->.
            exact (Hne _ Hin eq_refl). }
          specialize (Hnodes r Hin). rewrite Hsame in Hnodes. exact Hnodes. }
        apply elem_of_cons in Hr as [-> | Hin]; [| contradiction].
        left. rewrite (Hkeep _ Hhead). apply lookup_insert_eq.
  - rewrite traverse_cons in Hrun. exact (IH h o h' o' Hrun Hnodup Hfresh).
Qed.

(** The second traversal writes back what the table holds for each node. *)
Lemma restoreTransferSize_pass (originalTransferSizes : gmap string Q) (graph : Graph) :
  forall (h h' : ref -> NodeRecord.t) (u : unit),
    traverse graph (restoreTransferSize originalTransferSizes) (h, tt) = (h', u) ->
    NoDup (networkRefs graph) ->
    (forall r, r ∉ networkRefs graph -> h' r = h r)
    /\ (forall r, r ∈ networkRefs graph ->
          h' r = match originalTransferSizes !! NodeRecord.requestId (h r) with
                 | Some original => NodeRecord.setTransferSize (h r) original
                 | None => h r
                 end).
Proof.
  induction graph as [| [r0 | c] graph IH]; intros h h' u Hrun Hnodup.
  - injection Hrun as <-. split; [reflexivity |].
    intros r Hr. apply elem_of_nil in Hr. contradiction.
  - rewrite traverse_cons in Hrun.
    change (networkRefs (NetworkNode r0 :: graph)) with (r0 :: networkRefs graph) in *.
    apply list.NoDup_cons in Hnodup as [Hhead Htail].
    unfold restoreTransferSize in Hrun at 2.
    destruct (originalTransferSizes !! NodeRecord.requestId (h r0)) as [original |] eqn:Ho.
    + destruct (IH _ h' u Hrun Htail) as [Hframe Hnodes]. split.
      * intros r Hr. rewrite Hframe.
        -- apply fn_lookup_insert_ne. intros ->. apply Hr. left.
        -- intros Hin. apply Hr. right. exact Hin.
      * intros r Hr. apply elem_of_cons in Hr as [-> | Hin].
        -- rewrite (Hframe _ Hhead), Ho. apply fn_lookup_insert.
        -- rewrite (Hnodes _ Hin).
           rewrite fn_lookup_insert_ne by (intros ->; contradiction). reflexivity.
    + destruct (IH _ h' u Hrun Htail) as [Hframe Hnodes]. split.
      * intros r Hr. apply Hframe. intros Hin. apply Hr. right. exact Hin.
      * intros r Hr. apply elem_of_cons in Hr as [-> | Hin].
        -- rewrite (Hframe _ Hhead), Ho. reflexivity.
        -- apply Hnodes. exact Hin.
  - rewrite traverse_cons in Hrun. exact (IH h h' u Hrun Hnodup).
Qed.

(** Lowering and then restoring gives back every record, when the network
    nodes of the graph have pairwise distinct request identifiers. *)
Lemma restore_after_apply (wastedBytesByUrl : gmap string Q) (graph : Graph)
    (h h1 h2 : ref -> NodeRecord.t) (o : gmap string Q) (u : unit) :
  NoDup (requestIds h graph) ->
  traverse graph (applyWastedBytes wastedBytesByUrl) (h, ∅) = (h1, o) ->
  traverse graph (restoreTransferSize o) (h1, tt) = (h2, u) ->
  forall r, h2 r = h r.
Proof.
  intros Hnodup Happly Hrestore r.
  destruct (applyWastedBytes_pass _ _ _ _ _ _ Happly Hnodup) as (Hf & Hframe & _ & Hnodes).
  { intros r' _. apply lookup_empty. }
  destruct (restoreTransferSize_pass _ _ _ _ _ Hrestore) as [Hframe2 Hnodes2].
  { exact (NoDup_fmap_1 _ _ Hnodup). }
  destruct (decide (r ∈ networkRefs graph)) as [Hin | Hnotin].
  - rewrite (Hnodes2 _ Hin). destruct (Hf r) as [Hid Hurl]. rewrite Hid.
    destruct (Hnodes _ Hin) as [-> | [-> Hsame]].
    + apply setTransferSize_same; assumption.
    + exact Hsame.
  - rewrite (Hframe2 _ Hnotin). apply Hframe. exact Hnotin.
Qed.

(** With an empty map neither traversal writes anything. *)
Lemma applyWastedBytes_empty (graph : Graph) (s : (ref -> NodeRecord.t) * gmap string Q) :
  traverse graph (applyWastedBytes ∅) s = s.
Proof.
  revert s. induction graph as [| [r | c] graph IH]; intros [h o]; [reflexivity | |].
  - rewrite traverse_cons. unfold applyWastedBytes at 2.
    rewrite lookup_empty. apply IH.
  - rewrite traverse_cons. apply IH.
Qed.

Lemma restoreTransferSize_empty (graph : Graph) (s : (ref -> NodeRecord.t) * unit) :
  traverse graph (restoreTransferSize ∅) s = s.
Proof.
  revert s. induction graph as [| [r | c] graph IH]; intros [h u]; [reflexivity | |].
  - rewrite traverse_cons. unfold restoreTransferSize at 2.
    rewrite lookup_empty. apply IH.
  - rewrite traverse_cons. apply IH.
Qed.

(** ** Runs of [computeWasteWithGraph] *)

(** The run of [computeWasteWithGraph] from a store [w], step by step. *)
Lemma computeWasteWithGraph_run (results : list ByteEfficiencyItem.t) (graph : Graph)
    (simulator : Simulator) (options : option Options) (w : World) :
  computeWasteWithGraph results graph simulator options w =
  let w1 := withLog w (log w ++ [Simulate (simulationLabel options "before")]) in
  match simulation simulator (records w) graph (simulationLabel options "before") with
  | Thrown message => (w1, Thrown message)
  | Returned before =>
      let lowered :=
        traverse graph (applyWastedBytes (effectiveWastedBytesByUrl results options))
          (records w, ∅) in
      let w2 :=
        withLog (withRecords w1 lowered.1)
          (log w1 ++ [Simulate (simulationLabel options "after")]) in
      match simulation simulator lowered.1 graph (simulationLabel options "after") with
      | Thrown message => (w2, Thrown message)
      | Returned after =>
          let restored := traverse graph (restoreTransferSize lowered.2) (lowered.1, tt) in
          (withRecords w2 restored.1,
           Returned {| savings := roundedSavings (timeInMs before - timeInMs after);
                       simulationBeforeChanges := before;
                       simulationAfterChanges := after |})
      end
  end.
Proof.
  unfold computeWasteWithGraph, effectiveWastedBytesByUrl, simulationLabel,
    mbind, M_bind, mret, M_ret, simulate, traverseRecords.
  cbn [records withLog withRecords log].
  destruct (simulation simulator (records w) graph _) as [before | message];
    [| reflexivity].
  destruct (traverse graph _ (records w, ∅)) as [h1 o] eqn:Hlowered.
  cbn [records withLog withRecords log fst snd].
  destruct (simulation simulator h1 graph _) as [after | message]; [| reflexivity].
  destruct (traverse graph _ (h1, tt)) as [h2 u].
  reflexivity.
Qed.

(** A simulator that never throws makes [computeWasteWithGraph] return. *)
Lemma computeWasteWithGraph_returns (results : list ByteEfficiencyItem.t) (graph : Graph)
    (simulator : Simulator) (options : option Options) (w : World) :
  neverThrows simulator ->
  exists w' waste,
    computeWasteWithGraph results graph simulator options w = (w', Returned waste)
    /\ arrays w' = arrays w.
Proof.
  intros Htotal. rewrite computeWasteWithGraph_run. cbv zeta.
  destruct (Htotal (records w) graph (simulationLabel options "before")) as [before ->].
  match goal with
  | |- context [simulation simulator ?h graph (simulationLabel options "after")] =>
      destruct (Htotal h graph (simulationLabel options "after")) as [after ->]
  end.
  eexists _, _. split; reflexivity.
Qed.

(** [computeWasteWithGraph] never touches the arrays of items. *)
Lemma computeWasteWithGraph_arrays (results : list ByteEfficiencyItem.t) (graph : Graph)
    (simulator : Simulator) (options : option Options) (w : World) :
  arrays (computeWasteWithGraph results graph simulator options w).1 = arrays w.
Proof.
  rewrite computeWasteWithGraph_run. cbv zeta.
  destruct (simulation simulator (records w) graph _); [| reflexivity].
  destruct (simulation simulator _ graph _); reflexivity.
Qed.

(** The run of [computeWasteWithTTIGraph] in terms of the run of
    [computeWasteWithGraph] on the options it builds. *)
Lemma computeWasteWithTTIGraph_run (results : list ByteEfficiencyItem.t) (graph : Graph)
    (simulator : Simulator) (options : option Options) (w : World) :
  computeWasteWithTTIGraph results graph simulator options w =
  match computeWasteWithGraph results graph simulator (overallLoadOptions options) w with
  | (w', Thrown message) => (w', Thrown message)
  | (w', Returned waste) =>
      let savingsOnTTI :=
        getLastLongTaskEndTime (nodeTimings (simulationBeforeChanges waste))
        - getLastLongTaskEndTime (nodeTimings (simulationAfterChanges waste)) in
      (w', Returned (roundedSavings
                       (if default true (options ≫= includeLoad)
                        then Qmax savingsOnTTI (savings waste) else savingsOnTTI)))
  end.
Proof.
  unfold computeWasteWithTTIGraph, overallLoadOptions, mbind, M_bind, mret, M_ret.
  destruct (computeWasteWithGraph results graph simulator _ w) as [w' [waste | message]];
    reflexivity.
Qed.

(** C1 (amended). On a graph whose network nodes have pairwise distinct
    request identifiers, [computeWasteWithGraph] leaves every record of the
    store as it was when it returns, and also when the first simulation
    throws; it returns whenever the simulator does.  When the second
    simulation throws, the call throws with the lowered transfer sizes still
    in the store: nothing restores them on that path. *)
Theorem computeWasteWithGraph_restores (results : list ByteEfficiencyItem.t)
    (graph : Graph) (simulator : Simulator) (options : option Options) (w : World) :
  NoDup (requestIds (records w) graph) ->
  let run := computeWasteWithGraph results graph simulator options w in
  let lowered :=
    (traverse graph (applyWastedBytes (effectiveWastedBytesByUrl results options))
       (records w, ∅)).1 in
  (forall waste, run.2 = Returned waste -> forall r, records run.1 r = records w r)
  /\ (forall message,
        simulation simulator (records w) graph (simulationLabel options "before")
        = Thrown message ->
        run.2 = Thrown message /\ forall r, records run.1 r = records w r)
  /\ (forall before message,
        simulation simulator (records w) graph (simulationLabel options "before")
        = Returned before ->
        simulation simulator lowered graph (simulationLabel options "after")
        = Thrown message ->
        run.2 = Thrown message /\ records run.1 = lowered)
  /\ (neverThrows simulator -> exists waste, run.2 = Returned waste).
Proof.
  intros Hnodup run lowered. subst run lowered.
  rewrite computeWasteWithGraph_run. cbv zeta.
  repeat apply conj.
  - intros waste.
    destruct (simulation simulator (records w) graph _); [| discriminate].
    destruct (traverse graph (applyWastedBytes _) _) as [h1 o] eqn:Hlowered.
    cbn [fst snd].
    destruct (simulation simulator h1 graph _); [| discriminate].
    destruct (traverse graph (restoreTransferSize o) _) as [h2 u] eqn:Hrestored.
    intros _ r. cbn [fst snd records withRecords].
    exact (restore_after_apply _ _ _ _ _ _ _ Hnodup Hlowered Hrestored r).
  - intros message ->. split; [reflexivity | intros r; reflexivity].
  - intros before message -> ->. split; reflexivity.
  - intros Htotal.
    destruct (Htotal (records w) graph (simulationLabel options "before")) as [before ->].
    match goal with
    | |- context [simulation simulator ?h graph (simulationLabel options "after")] =>
        destruct (Htotal h graph (simulationLabel options "after")) as [after ->]
    end.
    eexists. reflexivity.
Qed.

(** The first traversal without any assumption on the graph: what it never
    touches, and that it only lowers when the map has no negative entry. *)
Lemma applyWastedBytes_frame (wastedBytesByUrl : gmap string Q) (graph : Graph) :
  forall (h : ref -> NodeRecord.t) (o : gmap string Q),
    let h' := (traverse graph (applyWastedBytes wastedBytesByUrl) (h, o)).1 in
    forall r,
      (NodeRecord.requestId (h' r) = NodeRecord.requestId (h r)
       /\ NodeRecord.url (h' r) = NodeRecord.url (h r))
      /\ (r ∉ networkRefs graph
          \/ wastedBytesByUrl !! NodeRecord.url (h r) = None
          \/ (exists wastedBytes,
                wastedBytesByUrl !! NodeRecord.url (h r) = Some wastedBytes
                /\ wastedBytes == 0) ->
          h' r = h r)
      /\ ((forall url wastedBytes,
              wastedBytesByUrl !! url = Some wastedBytes -> 0 <= wastedBytes) ->
          0 <= NodeRecord.transferSize (h r) ->
          0 <= NodeRecord.transferSize (h' r) <= NodeRecord.transferSize (h r)).
Proof.
  induction graph as [| [r0 | c] graph IH]; intros h o h' r; subst h'.
  - cbn. repeat split; try reflexivity; intros; lra.
  - rewrite traverse_cons.
    destruct (applyWastedBytes_step wastedBytesByUrl r0 h o)
      as [[-> _] | (wastedBytes & Hw & Hnz & ->)].
    + destruct (IH h o r) as (Hf & Hframe & Hlow).
      split; [exact Hf |]. split; [| exact Hlow].
      intros [Hr | Hr]; apply Hframe; [| right; exact Hr].
      left. intros Hin. apply Hr. right. exact Hin.
    + set (h1 := <[r0 := NodeRecord.setTransferSize (h r0)
                          (Qmax (NodeRecord.transferSize (h r0) - wastedBytes) 0)]> h).
      destruct (insert_setTransferSize_fields h r0
                  (Qmax (NodeRecord.transferSize (h r0) - wastedBytes) 0) r)
        as [Hid Hurl].
      fold h1 in Hid, Hurl.
      destruct (IH h1 (<[NodeRecord.requestId (h r0) := NodeRecord.transferSize (h r0)]> o) r)
        as ([Hf1 Hf2] & Hframe & Hlow).
      split; [split; congruence |]. split.
      * intros Hcases.
        assert (Hne : r0 <> r).
        { intros ->. destruct Hcases as [Hr | [Hr | (w0 & Hr & Hz)]].
          - apply Hr. left.
          - congruence.
          - rewrite Hw in Hr. injection Hr as ->. contradiction. }
        rewrite Hframe.
        -- apply fn_lookup_insert_ne. exact Hne.
        -- rewrite Hurl. destruct Hcases as [Hr | Hr]; [| right; exact Hr].
           left. intros Hin. apply Hr. right. exact Hin.
      * intros Hpos Hsize.
        assert (Hstep : 0 <= NodeRecord.transferSize (h1 r) <= NodeRecord.transferSize (h r)).
        { destruct (decide (r0 = r)) as [<- | Hne].
          - unfold h1. rewrite fn_lookup_insert.
            destruct (setTransferSize_fields (h r0)
                        (Qmax (NodeRecord.transferSize (h r0) - wastedBytes) 0))
              as (_ & _ & ->).
            specialize (Hpos _ _ Hw). split.
            + apply Q.le_max_r.
            + apply Q.max_lub; lra.
          - unfold h1. rewrite fn_lookup_insert_ne by exact Hne. lra. }
        specialize (Hlow Hpos (proj1 Hstep)). lra.
  - rewrite traverse_cons. exact (IH h o r).
Qed.

(** The value that the first traversal writes to a node it visits once. *)
Lemma applyWastedBytes_written (wastedBytesByUrl : gmap string Q) (graph : Graph) :
  forall (h : ref -> NodeRecord.t) (o : gmap string Q) (r : ref) (wastedBytes : Q),
    NoDup (networkRefs graph) ->
    r ∈ networkRefs graph ->
    wastedBytesByUrl !! NodeRecord.url (h r) = Some wastedBytes ->
    ~ wastedBytes == 0 ->
    NodeRecord.transferSize ((traverse graph (applyWastedBytes wastedBytesByUrl) (h, o)).1 r)
    = Qmax (NodeRecord.transferSize (h r) - wastedBytes) 0.
Proof.
  induction graph as [| [r0 | c] graph IH]; intros h o r wastedBytes Hnodup Hr Hw Hnz.
  - apply elem_of_nil in Hr. contradiction.
  - rewrite traverse_cons.
    change (networkRefs (NetworkNode r0 :: graph)) with (r0 :: networkRefs graph) in *.
    apply list.NoDup_cons in Hnodup as [Hhead Htail].
    apply elem_of_cons in Hr as [-> | Hin].
    + destruct (applyWastedBytes_step wastedBytesByUrl r0 h o)
        as [[_ [Hnone | (w0 & Hsome & Hz)]] | (w0 & Hsome & _ & ->)].
      * congruence.
      * rewrite Hw in Hsome. injection Hsome as ->. contradiction.
      * rewrite Hw in Hsome. injection Hsome as <-.
        destruct (applyWastedBytes_frame wastedBytesByUrl graph
                    (<[r0 := NodeRecord.setTransferSize (h r0)
                              (Qmax (NodeRecord.transferSize (h r0) - wastedBytes) 0)]> h)
                    (<[NodeRecord.requestId (h r0) := NodeRecord.transferSize (h r0)]> o) r0)
          as (_ & Hframe & _).
        rewrite Hframe by (left; exact Hhead).
        rewrite fn_lookup_insert. apply setTransferSize_fields.
    + assert (Hne : r0 <> r) by (intros ->; contradiction).
      destruct (applyWastedBytes_step wastedBytesByUrl r0 h o)
        as [[-> _] | (w0 & _ & _ & ->)].
      * apply IH; assumption.
      * rewrite IH with (wastedBytes := wastedBytes); try assumption.
        -- rewrite fn_lookup_insert_ne by exact Hne. reflexivity.
        -- destruct (insert_setTransferSize_fields h r0
                       (Qmax (NodeRecord.transferSize (h r0) - w0) 0) r) as [_ ->].
           exact Hw.
  - rewrite traverse_cons. apply IH; assumption.
Qed.

(** C2 (amended). In the first traversal of [computeWasteWithGraph] a record
    is overwritten only when it belongs to a network node and the map has an
    entry for its url that is not 0: records of no network node, records
    whose url is absent from the map and records whose entry is 0 are kept
    as they are, and only [transferSize] is ever written.  A network node
    visited once with a non-zero entry gets
    [max(original - wastedBytes, 0)].  When no entry of the map is negative,
    a non-negative transfer size never increases. *)
Theorem applyWastedBytes_traversal (wastedBytesByUrl : gmap string Q) (graph : Graph)
    (h : ref -> NodeRecord.t) (r : ref) :
  let h' := (traverse graph (applyWastedBytes wastedBytesByUrl) (h, ∅)).1 in
  (NodeRecord.requestId (h' r) = NodeRecord.requestId (h r)
   /\ NodeRecord.url (h' r) = NodeRecord.url (h r))
  /\ (r ∉ networkRefs graph
      \/ wastedBytesByUrl !! NodeRecord.url (h r) = None
      \/ (exists wastedBytes,
            wastedBytesByUrl !! NodeRecord.url (h r) = Some wastedBytes
            /\ wastedBytes == 0) ->
      h' r = h r)
  /\ (forall wastedBytes,
        NoDup (networkRefs graph) ->
        r ∈ networkRefs graph ->
        wastedBytesByUrl !! NodeRecord.url (h r) = Some wastedBytes ->
        ~ wastedBytes == 0 ->
        NodeRecord.transferSize (h' r)
        = Qmax (NodeRecord.transferSize (h r) - wastedBytes) 0)
  /\ ((forall url wastedBytes,
          wastedBytesByUrl !! url = Some wastedBytes -> 0 <= wastedBytes) ->
      0 <= NodeRecord.transferSize (h r) ->
      NodeRecord.transferSize (h' r) <= NodeRecord.transferSize (h r)).
Proof.
  intros h'. subst h'.
  destruct (applyWastedBytes_frame wastedBytesByUrl graph h ∅ r) as (Hf & Hframe & Hlow).
  split; [exact Hf |]. split; [exact Hframe |]. split.
  - intros wastedBytes Hnodup Hr Hw Hnz.
    apply applyWastedBytes_written; assumption.
  - intros Hpos Hsize. apply Hlow; assumption.
Qed.


(** C9. When the effective wasted-bytes-by-url map is empty (an empty
    provided map, or no provided map and no items) and the simulator is
    deterministic, a call whose first simulation returns [before] returns
    savings 0 with [before] as both simulation results: the first traversal
    writes nothing, so the second simulation runs on the same records, and
    the store holds the same records afterwards. *)
Theorem empty_map_no_savings (results : list ByteEfficiencyItem.t) (graph : Graph)
    (simulator : Simulator) (options : option Options) (w : World)
    (before : SimulationResult) :
  options ≫= providedWastedBytesByUrl = Some ∅
  \/ (options ≫= providedWastedBytesByUrl = None /\ results = []) ->
  deterministic simulator ->
  simulation simulator (records w) graph (simulationLabel options "before")
  = Returned before ->
  let run := computeWasteWithGraph results graph simulator options w in
  (traverse graph (applyWastedBytes (effectiveWastedBytesByUrl results options))
     (records w, ∅)).1 = records w
  /\ records run.1 = records w
  /\ exists waste,
      run.2 = Returned waste
      /\ savings waste == 0
      /\ simulationBeforeChanges waste = before
      /\ simulationAfterChanges waste = before.
Proof.
  intros Hempty Hdet Hbefore run. subst run.
  assert (Hmap : effectiveWastedBytesByUrl results options = ∅).
  { unfold effectiveWastedBytesByUrl.
    destruct Hempty as [-> | [-> ->]]; reflexivity. }
  rewrite computeWasteWithGraph_run. cbv zeta.
  rewrite Hbefore, Hmap, applyWastedBytes_empty. cbn [fst snd].
  rewrite (Hdet (records w) graph (simulationLabel options "after")
             (simulationLabel options "before")), Hbefore.
  rewrite restoreTransferSize_empty. cbn [fst snd records withRecords].
  split; [reflexivity |]. split; [reflexivity |].
  eexists. split; [reflexivity |].
  cbn [savings simulationBeforeChanges simulationAfterChanges].
  split; [| split; reflexivity].
  apply roundedSavings_zero. lra.
Qed.

Lemma computeWasteWithTTIGraph_returns (results : list ByteEfficiencyItem.t) (graph : Graph)
    (simulator : Simulator) (options : option Options) (w : World) :
  neverThrows simulator ->
  exists w' wastedMs,
    computeWasteWithTTIGraph results graph simulator options w = (w', Returned wastedMs).
Proof.
  intros Htotal. rewrite computeWasteWithTTIGraph_run.
  destruct (computeWasteWithGraph_returns results graph simulator
              (overallLoadOptions options) w Htotal) as (w' & waste & -> & _).
  eexists _, _. reflexivity.
Qed.

Lemma computeWasteWithTTIGraph_arrays (results : list ByteEfficiencyItem.t) (graph : Graph)
    (simulator : Simulator) (options : option Options) (w : World) :
  arrays (computeWasteWithTTIGraph results graph simulator options w).1 = arrays w.
Proof.
  rewrite computeWasteWithTTIGraph_run.
  pose proof (computeWasteWithGraph_arrays results graph simulator
                (overallLoadOptions options) w) as H.
  destruct (computeWasteWithGraph results graph simulator _ w) as [w' [waste | message]];
    exact H.
Qed.

(** ** [createAuditProduct] *)

(** The part of [createAuditProduct] after the sort and the sum: the branch
    on the gather mode. *)
Lemma createAuditProduct_run (result : ByteEfficiencyProduct.t Headings)
    (graph : option Graph) (simulator : Simulator)
    (processedNavigation : option ProcessedNavigation)
    (gatherContext : GatherContext) (w : World) :
  let sorted := sortByWastedBytes (arrays w (ByteEfficiencyProduct.items result)) in
  let w0 := withArrays w (<[ByteEfficiencyProduct.items result := sorted]> (arrays w)) in
  let run := createAuditProduct result graph simulator processedNavigation gatherContext w in
  arrays run.1 = arrays w0
  /\ (gatherMode gatherContext = navigation -> graph = None ->
      run = (w0, Thrown "Page dependency graph should always be computed in navigation mode"))
  /\ (gatherMode gatherContext = navigation -> is_Some graph -> processedNavigation = None ->
      run = (w0, Thrown "Processed navigation should always be computed in navigation mode"))
  /\ (gatherMode gatherContext = navigation -> is_Some graph -> is_Some processedNavigation ->
      neverThrows simulator -> exists product, run.2 = Returned (Opportunity product))
  /\ (gatherMode gatherContext <> navigation ->
      exists product, run.2 = Returned (Opportunity product))
  /\ (forall product,
        run.2 = Returned (Opportunity product) ->
        OpportunityDetails.items (AuditProduct.details product)
        = ByteEfficiencyProduct.items result).
Proof.
  intros sorted w0 run. subst run.
  unfold createAuditProduct, mbind, M_bind, sortInPlace.
  fold sorted. fold w0.
  destruct (gatherMode gatherContext) eqn:Hmode.
  - destruct graph as [graph |].
    2:{ repeat split; try reflexivity; try congruence.
        - intros _ [g Hg]. discriminate.
        - intros _ [g Hg]. discriminate.
        - intros product. discriminate. }
    destruct processedNavigation as [processedNavigation |].
    2:{ repeat split; try reflexivity; try congruence.
        - intros _ _ [p Hp]. discriminate.
        - intros product. discriminate. }
    pose proof (computeWasteWithTTIGraph_arrays sorted graph simulator
      (Some {| label := None; includeLoad := None;
               providedWastedBytesByUrl := ByteEfficiencyProduct.wastedBytesByUrl result |})
      w0) as Hframe1.
    pose proof (computeWasteWithTTIGraph_returns sorted graph simulator
      (Some {| label := None; includeLoad := None;
               providedWastedBytesByUrl := ByteEfficiencyProduct.wastedBytesByUrl result |})
      w0) as Hret1.
    destruct (computeWasteWithTTIGraph sorted graph simulator _ w0)
      as [w1 [wastedMs | message]].
    2:{ repeat split; try exact Hframe1; try congruence.
        - intros _ _ _ Htotal. destruct (Hret1 Htotal) as (? & ? & [=]).
        - intros product. discriminate. }
    pose proof (computeWasteWithGraph_arrays sorted
      (getPessimisticGraphFCP graph processedNavigation) simulator
      (Some {| label := Some "fcp"; includeLoad := None;
               providedWastedBytesByUrl := ByteEfficiencyProduct.wastedBytesByUrl result |})
      w1) as Hframe2.
    pose proof (computeWasteWithGraph_returns sorted
      (getPessimisticGraphFCP graph processedNavigation) simulator
      (Some {| label := Some "fcp"; includeLoad := None;
               providedWastedBytesByUrl := ByteEfficiencyProduct.wastedBytesByUrl result |})
      w1) as Hret2.
    destruct (computeWasteWithGraph sorted (getPessimisticGraphFCP _ _) simulator _ w1)
      as [w2 [fcp | message]].
    2:{ repeat split; try (cbn [fst] in *; congruence).
        - intros _ _ _ Htotal. destruct (Hret2 Htotal) as (? & ? & [=] & _).
        - intros product. discriminate. }
    pose proof (computeWasteWithGraph_arrays sorted
      (getPessimisticGraphLCP graph processedNavigation) simulator
      (Some {| label := Some "lcp"; includeLoad := None;
               providedWastedBytesByUrl := ByteEfficiencyProduct.wastedBytesByUrl result |})
      w2) as Hframe3.
    pose proof (computeWasteWithGraph_returns sorted
      (getPessimisticGraphLCP graph processedNavigation) simulator
      (Some {| label := Some "lcp"; includeLoad := None;
               providedWastedBytesByUrl := ByteEfficiencyProduct.wastedBytesByUrl result |})
      w2) as Hret3.
    destruct (computeWasteWithGraph sorted (getPessimisticGraphLCP _ _) simulator _ w2)
      as [w3 [lcp | message]].
    2:{ repeat split; try (cbn [fst] in *; congruence).
        - intros _ _ _ Htotal. destruct (Hret3 Htotal) as (? & ? & [=] & _).
        - intros product. discriminate. }
    unfold mret, M_ret, consoleLog, emit.
    cbn [fst snd arrays withLog] in *.
    repeat split; try congruence.
    + intros _ _ _ _. eexists. reflexivity.
    + intros product [= <-]. reflexivity.
  - cbn. repeat split; try congruence.
    + intros _. eexists. reflexivity.
    + intros product [= <-]. reflexivity.
  - cbn. repeat split; try congruence.
    + intros _. eexists. reflexivity.
    + intros product [= <-]. reflexivity.
Qed.

(** C7. In navigation mode [createAuditProduct] throws when the graph or the
    processed navigation is missing, with the message of the check that
    fails, before any call to the simulator: the log of calls and the
    records are as before.  With both present it only throws if the
    simulator does, and in any other gather mode it returns whether or not
    they are present. *)
Theorem createAuditProduct_preconditions (result : ByteEfficiencyProduct.t Headings)
    (graph : option Graph) (simulator : Simulator)
    (processedNavigation : option ProcessedNavigation)
    (gatherContext : GatherContext) (w : World) :
  let run := createAuditProduct result graph simulator processedNavigation gatherContext w in
  (gatherMode gatherContext = navigation ->
   graph = None \/ processedNavigation = None ->
   run.2 = Thrown
             match graph with
             | Some _ => "Processed navigation should always be computed in navigation mode"
             | None => "Page dependency graph should always be computed in navigation mode"
             end
   /\ log run.1 = log w
   /\ records run.1 = records w)
  /\ (gatherMode gatherContext = navigation ->
      is_Some graph -> is_Some processedNavigation -> neverThrows simulator ->
      exists product, run.2 = Returned (Opportunity product))
  /\ (gatherMode gatherContext <> navigation ->
      exists product, run.2 = Returned (Opportunity product)).
Proof.
  intros run. subst run.
  destruct (createAuditProduct_run result graph simulator processedNavigation gatherContext w)
    as (_ & Hgraph & Hnavigation & Hboth & Hother & _).
  split; [| split; [exact Hboth | exact Hother]].
  intros Hmode Hmissing. destruct graph as [graph |].
  - destruct Hmissing as [Hnone | Hnone]; [discriminate |].
    rewrite (Hnavigation Hmode (ltac:(eexists; reflexivity)) Hnone).
    repeat split.
  - rewrite (Hgraph Hmode eq_refl). repeat split.
Qed.

(** ** The sort *)

Lemma insertByWastedBytes_Permutation (item : ByteEfficiencyItem.t)
    (sorted : list ByteEfficiencyItem.t) :
  Permutation (item :: sorted) (insertByWastedBytes item sorted).
Proof.
  induction sorted as [| other rest IH]; [reflexivity |].
  cbn [insertByWastedBytes].
  destruct (Qlt_bool _ _); [| reflexivity].
  rewrite perm_swap. apply perm_skip. exact IH.
Qed.

Lemma sortByWastedBytes_Permutation (items : list ByteEfficiencyItem.t) :
  Permutation items (sortByWastedBytes items).
Proof.
  induction items as [| item items IH]; [reflexivity |].
  cbn [sortByWastedBytes foldr]. fold (sortByWastedBytes items).
  rewrite <- insertByWastedBytes_Permutation. apply perm_skip. exact IH.
Qed.

Lemma insertByWastedBytes_Sorted (item : ByteEfficiencyItem.t)
    (sorted : list ByteEfficiencyItem.t) :
  Sorted descendingByWastedBytes sorted ->
  Sorted descendingByWastedBytes (insertByWastedBytes item sorted).
Proof.
  induction sorted as [| other rest IH]; intros Hsorted.
  - repeat constructor.
  - cbn [insertByWastedBytes].
    destruct (Qlt_bool _ _) eqn:Hlt.
    + apply Sorted_inv in Hsorted as [Hrest Hhd].
      constructor; [apply IH; exact Hrest |].
      apply Qlt_bool_true in Hlt.
      destruct rest as [| next rest]; cbn [insertByWastedBytes].
      * constructor. unfold descendingByWastedBytes. lra.
      * destruct (Qlt_bool _ _).
        -- constructor. apply HdRel_inv in Hhd. exact Hhd.
        -- constructor. unfold descendingByWastedBytes. lra.
    + apply Qlt_bool_false in Hlt.
      constructor; [exact Hsorted |]. constructor. exact Hlt.
Qed.

Lemma sortByWastedBytes_Sorted (items : list ByteEfficiencyItem.t) :
  Sorted descendingByWastedBytes (sortByWastedBytes items).
Proof.
  induction items as [| item items IH]; [constructor |].
  cbn [sortByWastedBytes foldr]. apply insertByWastedBytes_Sorted. exact IH.
Qed.

(** C10. Whatever the outcome of [createAuditProduct], the array that
    [result.items] refers to holds afterwards the items it held before,
    ranked by descending wasted bytes: the sort writes to the array of the
    caller, and the details of the product refer to that same array.  No
    other array is written. *)
Theorem createAuditProduct_sorts_in_place (result : ByteEfficiencyProduct.t Headings)
    (graph : option Graph) (simulator : Simulator)
    (processedNavigation : option ProcessedNavigation)
    (gatherContext : GatherContext) (w : World) :
  let run := createAuditProduct result graph simulator processedNavigation gatherContext w in
  let before := arrays w (ByteEfficiencyProduct.items result) in
  let after := arrays run.1 (ByteEfficiencyProduct.items result) in
  after = sortByWastedBytes before
  /\ Permutation before after
  /\ Sorted descendingByWastedBytes after
  /\ (forall array, array <> ByteEfficiencyProduct.items result ->
        arrays run.1 array = arrays w array)
  /\ (forall product,
        run.2 = Returned (Opportunity product) ->
        OpportunityDetails.items (AuditProduct.details product)
        = ByteEfficiencyProduct.items result).
Proof.
  intros run before after. subst run before after.
  destruct (createAuditProduct_run result graph simulator processedNavigation gatherContext w)
    as (Harrays & _ & _ & _ & _ & Hdetails).
  rewrite Harrays. cbn [arrays withArrays].
  rewrite fn_lookup_insert.
  split; [reflexivity |]. split; [apply sortByWastedBytes_Permutation |].
  split; [apply sortByWastedBytes_Sorted |]. split; [| exact Hdetails].
  intros array Hne. apply fn_lookup_insert_ne. congruence.
Qed.

(** ** The entry point *)

Lemma existsb_hasTransferSize (networkRecords : list NetworkRequest.t) :
  (forall record, record ∈ networkRecords -> unmeasured (NetworkRequest.transferSize record)) ->
  existsb hasTransferSize networkRecords = false.
Proof.
  induction networkRecords as [| record rest IH]; intros Hall; [reflexivity |].
  cbn [existsb]. rewrite IH by (intros r Hr; apply Hall; right; exact Hr).
  rewrite orb_false_r.
  specialize (Hall record (ltac:(left))).
  unfold hasTransferSize, unmeasured in *.
  destruct (NetworkRequest.transferSize record) as [[q | | |] |];
    try reflexivity; try contradiction.
  cbn [Js.truthy]. apply negb_false_iff, Qeq_bool_iff. exact Hall.
Qed.

(** C8. In timespan mode, when the network records that were requested come
    back and none of them has a measured transfer size, [audit] returns
    exactly [{score: 1, notApplicable: true}] and the store is the one that
    the request for the network records left: neither the detector nor the
    dependency graph, the load simulator or the processed navigation has
    been asked for, and nothing has been simulated. *)
Theorem audit_not_applicable (artifacts : Artifacts) (context : option Context)
    (w w1 : World) (networkRecords : list NetworkRequest.t) :
  NetworkRecords_request (devtoolsLog artifacts) context
    (withLog w (log w ++ [NetworkRecordsRequest])) = (w1, Returned networkRecords) ->
  (forall record, record ∈ networkRecords ->
     unmeasured (NetworkRequest.transferSize record)) ->
  gatherMode (GatherContext_ artifacts) = timespan ->
  audit artifacts context w = (w1, Returned (NotApplicable 1 true)).
Proof.
  intros Hrequest Hnone Hmode.
  unfold audit, call, mbind, M_bind, emit. rewrite Hrequest.
  rewrite (existsb_hasTransferSize _ Hnone), Hmode. reflexivity.
Qed.

(** * Further properties *)

(** ** More on the score curve *)

(** X1. For a whole number of milliseconds the score is perfect exactly
    when no time is wasted and zero exactly from 5000 ms on; it is at least
    0.75 exactly up to 300 ms ([WASTED_MS_FOR_AVERAGE]) and at least 0.5
    exactly up to 750 ms ([WASTED_MS_FOR_POOR]). *)
Theorem scoreForWastedMs_thresholds (wastedMs : Z) :
  let score := scoreForWastedMs (inject_Z wastedMs) in
  (score == 1 <-> (wastedMs <= 0)%Z)
  /\ (0.75 <= score <-> (wastedMs <= 300)%Z)
  /\ (0.5 <= score <-> (wastedMs <= 750)%Z)
  /\ (score == 0 <-> (5000 <= wastedMs)%Z).
Proof.
  cbv zeta.
  rewrite (Zle_Qle wastedMs 0), (Zle_Qle wastedMs 300), (Zle_Qle wastedMs 750),
    (Zle_Qle 5000 wastedMs).
  change (inject_Z 0) with 0. change (inject_Z 300) with 300.
  change (inject_Z 750) with 750. change (inject_Z 5000) with 5000.
  destruct (scoreForWastedMs_pieces (inject_Z wastedMs)) as [H | [H | [H | [H | H]]]];
    repeat split; intros; lra.
Qed.

(** X2. Between 0 and 5000 ms every additional whole millisecond lowers
    the score: wasting at least 1 ms more gives a strictly smaller score. *)
Theorem scoreForWastedMs_strictly_decreasing (a b : Q) :
  0 <= a -> a + 1 <= b -> b <= 5000 -> scoreForWastedMs b < scoreForWastedMs a.
Proof.
  intros Ha Hab Hb.
  destruct (scoreForWastedMs_pieces a) as [Hpa | [Hpa | [Hpa | [Hpa | Hpa]]]];
    destruct (scoreForWastedMs_pieces b) as [Hpb | [Hpb | [Hpb | [Hpb | Hpb]]]]; lra.
Qed.

(** ** More on the transfer size estimate *)

Lemma estimateTransferSize_heuristic (totalBytes : Js.number) (resourceType : ResourceType) :
  estimateTransferSize None totalBytes resourceType
  = Js.round (Js.mul totalBytes (Js.Num (heuristicFactor resourceType))).
Proof.
  unfold estimateTransferSize, heuristicFactor.
  destruct (isResourceType resourceType "Stylesheet"); [reflexivity |].
  destruct (isResourceType resourceType "Script" || isResourceType resourceType "Document");
    reflexivity.
Qed.

Lemma heuristicFactor_cases (resourceType : ResourceType) :
  heuristicFactor resourceType = 0.2
  \/ heuristicFactor resourceType = 0.33
  \/ heuristicFactor resourceType = 0.5.
Proof.
  unfold heuristicFactor.
  destruct (isResourceType resourceType "Stylesheet"); [left; reflexivity |].
  destruct (isResourceType resourceType "Script" || isResourceType resourceType "Document");
    [right; left | right; right]; reflexivity.
Qed.

Lemma Qfloor_below_one (x : Q) : x < 1 -> (Qfloor x <= 0)%Z.
Proof.
  intros Hx. pose proof (Qfloor_le x) as Hle.
  assert (Hlt : inject_Z (Qfloor x) < inject_Z 1) by (change (inject_Z 1) with 1; lra).
  rewrite <- Zlt_Qlt in Hlt. lia.
Qed.

(** X3. Without a network record, the estimate of a resource of
    [totalBytes >= 0] bytes is a whole number of bytes between 0 and
    [totalBytes]: the heuristic never estimates more than the uncompressed
    size. *)
Theorem estimateTransferSize_heuristic_bounds (totalBytes : Q) (resourceType : ResourceType) :
  0 <= totalBytes ->
  exists n : Z,
    estimateTransferSize None (Js.Num totalBytes) resourceType = Js.Num (inject_Z n)
    /\ (0 <= n)%Z
    /\ inject_Z n <= totalBytes.
Proof.
  intros Hbytes. rewrite estimateTransferSize_heuristic. cbn [Js.mul Js.round].
  set (factor := heuristicFactor resourceType).
  assert (Hfactor : 0 < factor /\ factor <= 0.5).
  { unfold factor. destruct (heuristicFactor_cases resourceType) as [-> | [-> | ->]];
      split; reflexivity || (vm_compute; discriminate). }
  exists (Qfloor (totalBytes * factor + 0.5)). split; [reflexivity |]. split.
  - apply (Qfloor_resp_le 0). nra.
  - destruct (Qlt_le_dec totalBytes 1) as [Hsmall | Hlarge].
    + assert (Hz : (Qfloor (totalBytes * factor + 0.5) <= 0)%Z).
      { apply Qfloor_below_one. nra. }
      rewrite Zle_Qle in Hz. change (inject_Z 0) with 0 in Hz. lra.
    + pose proof (Qfloor_le (totalBytes * factor + 0.5)) as Hle. nra.
Qed.

(** X4. Without a network record the estimate grows with the size of the
    resource, and for the same size a stylesheet is estimated no larger than
    a script or a document, which are estimated no larger than any other
    kind. *)
Theorem estimateTransferSize_heuristic_order (a b : Q) (resourceType : ResourceType) :
  0 <= a -> a <= b ->
  Js.le (estimateTransferSize None (Js.Num a) resourceType)
        (estimateTransferSize None (Js.Num b) resourceType)
  /\ Js.le (estimateTransferSize None (Js.Num a) (Some "Stylesheet"))
           (estimateTransferSize None (Js.Num a) (Some "Script"))
  /\ estimateTransferSize None (Js.Num a) (Some "Script")
     = estimateTransferSize None (Js.Num a) (Some "Document")
  /\ (Js.le (estimateTransferSize None (Js.Num a) (Some "Document"))
            (estimateTransferSize None (Js.Num a) resourceType)
      \/ resourceType = Some "Stylesheet").
Proof.
  intros Ha Hab.
  assert (Hmono : forall x y f g : Q, 0 <= x -> x <= y -> 0 < f -> f <= g ->
            Js.le (Js.round (Js.mul (Js.Num x) (Js.Num f)))
                  (Js.round (Js.mul (Js.Num y) (Js.Num g)))).
  { intros x y f g Hx Hxy Hf Hfg. cbn [Js.mul Js.round Js.le].
    rewrite <- Zle_Qle. apply Qfloor_resp_le. nra. }
  rewrite !estimateTransferSize_heuristic.
  split; [| split; [| split]].
  - destruct (heuristicFactor_cases resourceType) as [-> | [-> | ->]];
      apply Hmono; try assumption; reflexivity || (vm_compute; discriminate).
  - apply Hmono; try assumption; [apply Qle_refl | reflexivity | vm_compute; discriminate].
  - reflexivity.
  - unfold heuristicFactor at 2.
    destruct (isResourceType resourceType "Stylesheet") eqn:Hsheet.
    + right. apply bool_decide_eq_true in Hsheet. exact Hsheet.
    + left.
      destruct (isResourceType resourceType "Script" || isResourceType resourceType "Document");
        apply Hmono; try assumption;
        first [apply Qle_refl | reflexivity | vm_compute; discriminate].
Qed.

(** X5. With a record of another resource type whose sizes are measured
    and which compresses ([0 <= transferSize <= resourceSize]): the estimate
    of the whole resource ([totalBytes = resourceSize]) is the record's
    transfer size, rounded, and the estimate of any part of [totalBytes >= 0]
    bytes lies between 0 and [totalBytes], rounded. *)
Theorem estimateTransferSize_inlined (record : NetworkRequest.t)
    (totalBytes transferSize resourceSize : Q) (resourceType : ResourceType) :
  NetworkRequest.resourceType record <> resourceType ->
  NetworkRequest.transferSize record = Some (Js.Num transferSize) ->
  NetworkRequest.resourceSize record = Some (Js.Num resourceSize) ->
  0 <= transferSize -> transferSize <= resourceSize -> 0 < resourceSize ->
  0 <= totalBytes ->
  estimateTransferSize (Some record) (Js.Num resourceSize) resourceType
  = Js.round (Js.Num transferSize)
  /\ Js.le (Js.Num 0) (estimateTransferSize (Some record) (Js.Num totalBytes) resourceType)
  /\ Js.le (estimateTransferSize (Some record) (Js.Num totalBytes) resourceType)
           (Js.round (Js.Num totalBytes)).
Proof.
  intros Htype Ht Hs Ht0 Hts Hs0 Hbytes.
  assert (Hform : forall bytes : Q,
            exists t' : Q, t' == transferSize
              /\ estimateTransferSize (Some record) (Js.Num bytes) resourceType
                 = Js.Num (inject_Z (Qfloor (bytes * (t' / resourceSize) + 0.5)))).
  { intros bytes. unfold estimateTransferSize.
    rewrite bool_decide_eq_false_2 by exact Htype. rewrite Ht, Hs.
    destruct (compressionRatio_usable resourceSize Hs0) as [-> ->].
    assert (Hnz : Qeq_bool resourceSize 0 = false).
    { destruct (Qeq_bool resourceSize 0) eqn:E; [| reflexivity].
      apply Qeq_bool_iff in E. lra. }
    unfold Js.orElse, Js.truthy.
    destruct (Qeq_bool transferSize 0) eqn:E; cbn [negb Js.div Js.mul Js.round];
      rewrite Hnz.
    - exists 0. split; [symmetry; apply Qeq_bool_iff; exact E | reflexivity].
    - exists transferSize. split; reflexivity. }
  assert (Hratio : forall t' : Q, t' == transferSize ->
            0 <= t' / resourceSize /\ t' / resourceSize <= 1).
  { intros t' Heq. split.
    - apply Qle_shift_div_l; [exact Hs0 | lra].
    - apply Qle_shift_div_r; [exact Hs0 | lra]. }
  split; [| split].
  - destruct (Hform resourceSize) as (t' & Heq & ->).
    cbn [Js.round]. do 2 f_equal. apply Qfloor_comp.
    rewrite Heq. field. lra.
  - destruct (Hform totalBytes) as (t' & Heq & ->).
    destruct (Hratio t' Heq) as [Hlo Hhi].
    cbn [Js.le]. change 0 with (inject_Z 0) at 1. rewrite <- Zle_Qle.
    apply (Qfloor_resp_le 0). set (ratio := t' / resourceSize) in *. nra.
  - destruct (Hform totalBytes) as (t' & Heq & ->).
    destruct (Hratio t' Heq) as [Hlo Hhi].
    cbn [Js.round Js.le]. rewrite <- Zle_Qle. apply Qfloor_resp_le.
    set (ratio := t' / resourceSize) in *. nra.
Qed.


(** ** More on the rounding of savings *)







(** ** More on [computeWasteWithGraph] *)



Lemma aggregate_fold (results : list ByteEfficiencyItem.t) :
  forall (m : gmap string Q) (url : string),
    let aggregated :=
      fold_left
        (fun (wastedBytesByUrl : gmap string Q) item =>
           <[ByteEfficiencyItem.url item :=
               default 0 (wastedBytesByUrl !! ByteEfficiencyItem.url item)
               + ByteEfficiencyItem.wastedBytes item]> wastedBytesByUrl)
        results m in
    default 0 (aggregated !! url) == default 0 (m !! url) + wastedBytesOf url results
    /\ (is_Some (aggregated !! url) <->
        is_Some (m !! url)
        \/ exists item, item ∈ results /\ ByteEfficiencyItem.url item = url).
Proof.
  induction results as [| item results IH]; intros m url aggregated; subst aggregated.
  - cbn [fold_left wastedBytesOf foldr]. split; [lra |]. split; [tauto |].
    intros [H | (item & Hin & _)]; [exact H |]. apply elem_of_nil in Hin. contradiction.
  - cbn [fold_left wastedBytesOf foldr]. fold (wastedBytesOf url results).
    destruct (IH (<[ByteEfficiencyItem.url item :=
                      default 0 (m !! ByteEfficiencyItem.url item)
                      + ByteEfficiencyItem.wastedBytes item]> m) url) as [Hsum Hsome].
    split.
    + rewrite Hsum. case_bool_decide as Hurl.
      * subst url. rewrite lookup_insert_eq. cbn [from_option Datatypes.id]. lra.
      * rewrite lookup_insert_ne by exact Hurl. lra.
    + rewrite Hsome. destruct (decide (ByteEfficiencyItem.url item = url)) as [Hurl | Hurl].
      * subst url. rewrite lookup_insert_eq. split.
        -- intros _. right. exists item. split; [left | reflexivity].
        -- intros _. left. eexists. reflexivity.
      * rewrite lookup_insert_ne by exact Hurl. split.
        -- intros [H | (item' & Hin & Heq)]; [left; exact H |].
           right. exists item'. split; [right; exact Hin | exact Heq].
        -- intros [H | (item' & Hin & Heq)]; [left; exact H |].
           apply elem_of_cons in Hin as [-> | Hin]; [contradiction |].
           right. exists item'. split; assumption.
Qed.

(** X7. The map that [computeWasteWithGraph] builds from the items when no
    map is provided has an entry for a url exactly when some item has that
    url, and the entry is the sum of the wasted bytes of the items with that
    url. *)
Theorem aggregateWastedBytes_lookup (results : list ByteEfficiencyItem.t) (url : string) :
  (aggregateWastedBytes results !! url = None <->
   forall item, item ∈ results -> ByteEfficiencyItem.url item <> url)
  /\ (forall wastedBytes,
        aggregateWastedBytes results !! url = Some wastedBytes ->
        wastedBytes == wastedBytesOf url results)
  /\ effectiveWastedBytesByUrl results None = aggregateWastedBytes results.
Proof.
  destruct (aggregate_fold results ∅ url) as [Hsum Hsome].
  fold (aggregateWastedBytes results) in Hsum, Hsome.
  rewrite lookup_empty in Hsum, Hsome. cbn [from_option Datatypes.id] in Hsum.
  split; [| split; [| reflexivity]].
  - rewrite eq_None_not_Some, Hsome. split.
    + intros Hnone item Hin Heq. apply Hnone. right. exists item. split; assumption.
    + intros Hall [[x Hx] | (item & Hin & Heq)]; [discriminate |].
      exact (Hall item Hin Heq).
  - intros wastedBytes Hlookup. rewrite Hlookup in Hsum. cbn [from_option Datatypes.id] in Hsum.
    lra.
Qed.

(** X8. When a map is provided, the items are ignored: [computeWasteWithGraph]
    and [computeWasteWithTTIGraph] give the same run for any two lists of
    items. *)
Theorem provided_map_overrides_items (results1 results2 : list ByteEfficiencyItem.t)
    (graph : Graph) (simulator : Simulator) (options : option Options) (w : World)
    (wastedBytesByUrl : gmap string Q) :
  options ≫= providedWastedBytesByUrl = Some wastedBytesByUrl ->
  computeWasteWithGraph results1 graph simulator options w
  = computeWasteWithGraph results2 graph simulator options w
  /\ computeWasteWithTTIGraph results1 graph simulator options w
     = computeWasteWithTTIGraph results2 graph simulator options w.
Proof.
  intros Hprovided.
  assert (Hrun : forall options',
            options' ≫= providedWastedBytesByUrl = Some wastedBytesByUrl ->
            computeWasteWithGraph results1 graph simulator options' w
            = computeWasteWithGraph results2 graph simulator options' w).
  { intros options' Hprovided'. rewrite !computeWasteWithGraph_run.
    unfold effectiveWastedBytesByUrl. rewrite Hprovided'. reflexivity. }
  split; [apply Hrun; exact Hprovided |].
  rewrite !computeWasteWithTTIGraph_run.
  rewrite (Hrun (overallLoadOptions options)); [reflexivity | exact Hprovided].
Qed.


Lemma restoreTransferSize_frame (originalTransferSizes : gmap string Q) (graph : Graph) :
  forall (h : ref -> NodeRecord.t) (u : unit),
    let h' := (traverse graph (restoreTransferSize originalTransferSizes) (h, u)).1 in
    forall r,
      (NodeRecord.requestId (h' r) = NodeRecord.requestId (h r)
       /\ NodeRecord.url (h' r) = NodeRecord.url (h r))
      /\ (r ∉ networkRefs graph -> h' r = h r).
Proof.
  induction graph as [| [r0 | c] graph IH]; intros h u h' r; subst h'.
  - cbn. repeat split.
  - rewrite traverse_cons.
    assert (Hstep : restoreTransferSize originalTransferSizes (NetworkNode r0) (h, u)
                    = match originalTransferSizes !! NodeRecord.requestId (h r0) with
                      | Some original =>
                          (<[r0 := NodeRecord.setTransferSize (h r0) original]> h, u)
                      | None => (h, u)
                      end) by reflexivity.
    rewrite Hstep. clear Hstep.
    destruct (originalTransferSizes !! NodeRecord.requestId (h r0)) as [original |].
    + destruct (IH (<[r0 := NodeRecord.setTransferSize (h r0) original]> h) u r)
        as ([Hid Hurl] & Hframe).
      destruct (insert_setTransferSize_fields h r0 original r) as [Hid0 Hurl0].
      split; [split; congruence |].
      intros Hr. rewrite Hframe.
      * apply fn_lookup_insert_ne. intros ->. apply Hr. left.
      * intros Hin. apply Hr. right. exact Hin.
    + destruct (IH h u r) as (Hf & Hframe). split; [exact Hf |].
      intros Hr. apply Hframe. intros Hin. apply Hr. right. exact Hin.
  - rewrite traverse_cons. exact (IH h u r).
Qed.

(** X9. Whatever the outcome of [computeWasteWithGraph] and whatever the
    graph, no record changes its request identifier or its url, a record
    that belongs to no network node of the graph is left as it is, and the
    arrays of items are not written. *)
Theorem computeWasteWithGraph_frame (results : list ByteEfficiencyItem.t) (graph : Graph)
    (simulator : Simulator) (options : option Options) (w : World) (r : ref) :
  let run := computeWasteWithGraph results graph simulator options w in
  NodeRecord.requestId (records run.1 r) = NodeRecord.requestId (records w r)
  /\ NodeRecord.url (records run.1 r) = NodeRecord.url (records w r)
  /\ (r ∉ networkRefs graph -> records run.1 r = records w r)
  /\ arrays run.1 = arrays w.
Proof.
  intros run. subst run.
  pose proof (computeWasteWithGraph_arrays results graph simulator options w) as Harrays.
  rewrite computeWasteWithGraph_run in *. cbv zeta in *.
  destruct (simulation simulator (records w) graph _) as [before | message].
  2:{ repeat split. }
  destruct (applyWastedBytes_frame (effectiveWastedBytesByUrl results options) graph
              (records w) ∅ r) as ([Hid1 Hurl1] & Hframe1 & _).
  destruct (traverse graph (applyWastedBytes _) _) as [h1 o] eqn:Hlowered.
  cbn [fst snd] in *.
  destruct (simulation simulator h1 graph _) as [after | message].
  2:{ cbn [fst records withLog withRecords].
      split; [exact Hid1 |]. split; [exact Hurl1 |]. split; [| exact Harrays].
      intros Hr. apply Hframe1. left. exact Hr. }
  destruct (restoreTransferSize_frame o graph h1 tt r) as ([Hid2 Hurl2] & Hframe2).
  destruct (traverse graph (restoreTransferSize o) _) as [h2 u].
  cbn [fst snd records withLog withRecords] in *.
  split; [congruence |]. split; [congruence |]. split; [| exact Harrays].
  intros Hr. rewrite (Hframe2 Hr). apply Hframe1. left. exact Hr.
Qed.

Lemma requestIds_ext (h h' : ref -> NodeRecord.t) (graph : Graph) :
  (forall r, h' r = h r) -> requestIds h' graph = requestIds h graph.
Proof.
  intros Hext. unfold requestIds. apply list_fmap_ext. intros _ r _. rewrite Hext. reflexivity.
Qed.

(** A call that returns has restored the records and has logged its two
    simulations. *)
Lemma computeWasteWithGraph_returned (results : list ByteEfficiencyItem.t) (graph : Graph)
    (simulator : Simulator) (options : option Options) (w w' : World)
    (waste : WasteWithGraph NodeTimings) :
  computeWasteWithGraph results graph simulator options w = (w', Returned waste) ->
  log w' = log w ++ [Simulate (simulationLabel options "before");
                     Simulate (simulationLabel options "after")]
  /\ arrays w' = arrays w
  /\ multipleOf10 (savings waste)
  /\ (NoDup (requestIds (records w) graph) -> forall r, records w' r = records w r).
Proof.
  rewrite computeWasteWithGraph_run. cbv zeta.
  destruct (simulation simulator (records w) graph _) as [before |]; [| discriminate].
  destruct (traverse graph (applyWastedBytes _) _) as [h1 o] eqn:Hlowered.
  cbn [fst snd].
  destruct (simulation simulator h1 graph _) as [after |]; [| discriminate].
  destruct (traverse graph (restoreTransferSize o) _) as [h2 u] eqn:Hrestored.
  cbn [fst snd]. intros [= <- <-].
  cbn [log arrays records withLog withRecords savings].
  split; [rewrite <- app_assoc; reflexivity |]. split; [reflexivity |].
  split; [apply roundedSavings_multipleOf10 |].
  intros Hnodup r. exact (restore_after_apply _ _ _ _ _ _ _ Hnodup Hlowered Hrestored r).
Qed.

Lemma computeWasteWithTTIGraph_returned (results : list ByteEfficiencyItem.t) (graph : Graph)
    (simulator : Simulator) (options : option Options) (w w' : World) (wastedMs : Q) :
  computeWasteWithTTIGraph results graph simulator options w = (w', Returned wastedMs) ->
  log w' = log w ++ [Simulate (id +:+ "-overallLoad-before")%string;
                     Simulate (id +:+ "-overallLoad-after")%string]
  /\ arrays w' = arrays w
  /\ multipleOf10 wastedMs
  /\ (NoDup (requestIds (records w) graph) -> forall r, records w' r = records w r).
Proof.
  rewrite computeWasteWithTTIGraph_run.
  destruct (computeWasteWithGraph results graph simulator (overallLoadOptions options) w)
    as [w1 [waste | message]] eqn:Hrun; [| discriminate].
  intros [= <- <-].
  destruct (computeWasteWithGraph_returned _ _ _ _ _ _ _ Hrun)
    as (Hlog & Harrays & _ & Hrecords).
  split; [exact Hlog |]. split; [exact Harrays |].
  split; [apply roundedSavings_multipleOf10 | exact Hrecords].
Qed.



(** ** More on [createAuditProduct] *)

(** The run of [createAuditProduct] from a store [w], step by step. *)
Lemma createAuditProduct_steps (result : ByteEfficiencyProduct.t Headings)
    (graph : option Graph) (simulator : Simulator)
    (processedNavigation : option ProcessedNavigation)
    (gatherContext : GatherContext) (w : World) :
  let sorted := sortByWastedBytes (arrays w (ByteEfficiencyProduct.items result)) in
  let w0 := withArrays w (<[ByteEfficiencyProduct.items result := sorted]> (arrays w)) in
  createAuditProduct result graph simulator processedNavigation gatherContext w =
  match gatherMode gatherContext with
  | navigation =>
      match graph, processedNavigation with
      | None, _ =>
          (w0, Thrown "Page dependency graph should always be computed in navigation mode")
      | Some _, None =>
          (w0, Thrown "Processed navigation should always be computed in navigation mode")
      | Some graph, Some processedNavigation =>
          match computeWasteWithTTIGraph sorted graph simulator (metricOptions result None) w0 with
          | (w1, Thrown message) => (w1, Thrown message)
          | (w1, Returned wastedMs) =>
              match computeWasteWithGraph sorted
                      (getPessimisticGraphFCP graph processedNavigation) simulator
                      (metricOptions result (Some "fcp")) w1 with
              | (w2, Thrown message) => (w2, Thrown message)
              | (w2, Returned fcp) =>
                  match computeWasteWithGraph sorted
                          (getPessimisticGraphLCP graph processedNavigation) simulator
                          (metricOptions result (Some "lcp")) w2 with
                  | (w3, Thrown message) => (w3, Thrown message)
                  | (w3, Returned lcp) =>
                      (withLog w3 (log w3 ++ [ConsoleLog id (savings fcp) (savings lcp)]),
                       Returned (Opportunity
                         (assembledProduct result sorted wastedMs
                            {| FCP := savings fcp; LCP := savings lcp |})))
                  end
              end
          end
      end
  | _ =>
      (withLog w0 (log w0 ++ [ComputeWastedMsFromWastedBytes (sumWastedBytes sorted);
                              ConsoleLog id 0 0]),
       Returned (Opportunity
         (assembledProduct result sorted
            (wastedMsFromWastedBytes simulator (sumWastedBytes sorted))
            {| FCP := 0; LCP := 0 |})))
  end.
Proof.
  intros sorted w0.
  unfold createAuditProduct, metricOptions, mbind, M_bind, sortInPlace.
  fold sorted. fold w0.
  destruct (gatherMode gatherContext).
  - destruct graph as [graph |]; [| reflexivity].
    destruct processedNavigation as [processedNavigation |]; [| reflexivity].
    destruct (computeWasteWithTTIGraph sorted graph simulator _ w0)
      as [w1 [wastedMs | message]]; [| reflexivity].
    destruct (computeWasteWithGraph sorted (getPessimisticGraphFCP _ _) simulator _ w1)
      as [w2 [fcp | message]]; [| reflexivity].
    destruct (computeWasteWithGraph sorted (getPessimisticGraphLCP _ _) simulator _ w2)
      as [w3 [lcp | message]]; reflexivity.
  - unfold computeWastedMsFromWastedBytes, consoleLog, emit, mbind, M_bind, mret, M_ret.
    cbn [log withLog records arrays fst snd FCP LCP]. rewrite <- app_assoc. reflexivity.
  - unfold computeWastedMsFromWastedBytes, consoleLog, emit, mbind, M_bind, mret, M_ret.
    cbn [log withLog records arrays fst snd FCP LCP]. rewrite <- app_assoc. reflexivity.
Qed.


Lemma sumWastedBytes_total (results : list ByteEfficiencyItem.t) :
  sumWastedBytes results == totalWastedBytes results.
Proof.
  unfold sumWastedBytes.
  assert (Hgen : forall start,
            fold_left (fun sum item => sum + ByteEfficiencyItem.wastedBytes item) results start
            == start + totalWastedBytes results).
  { induction results as [| item results IH]; intros start.
    - cbn. lra.
    - cbn [fold_left totalWastedBytes foldr]. fold (totalWastedBytes results).
      rewrite IH. lra. }
  rewrite Hgen. lra.
Qed.

Lemma totalWastedBytes_Permutation (items items' : list ByteEfficiencyItem.t) :
  Permutation items items' -> totalWastedBytes items == totalWastedBytes items'.
Proof.
  induction 1 as [| item items items' _ IH | item item' items | items items' items'' _ IH1 _ IH2].
  - reflexivity.
  - cbn [totalWastedBytes foldr]. fold (totalWastedBytes items) (totalWastedBytes items'). lra.
  - cbn [totalWastedBytes foldr]. fold (totalWastedBytes items). lra.
  - lra.
Qed.

(** What a returning call of [createAuditProduct] has assembled. *)
Lemma createAuditProduct_returned (result : ByteEfficiencyProduct.t Headings)
    (graph : option Graph) (simulator : Simulator)
    (processedNavigation : option ProcessedNavigation)
    (gatherContext : GatherContext) (w : World) (product : Product Headings) :
  (createAuditProduct result graph simulator processedNavigation gatherContext w).2
  = Returned product ->
  let sorted := sortByWastedBytes (arrays w (ByteEfficiencyProduct.items result)) in
  exists wastedMs metricSavings,
    product = Opportunity (assembledProduct result sorted wastedMs metricSavings)
    /\ (gatherMode gatherContext = navigation ->
        multipleOf10 wastedMs
        /\ multipleOf10 (FCP metricSavings)
        /\ multipleOf10 (LCP metricSavings))
    /\ (gatherMode gatherContext <> navigation ->
        wastedMs = wastedMsFromWastedBytes simulator (sumWastedBytes sorted)
        /\ metricSavings = {| FCP := 0; LCP := 0 |}).
Proof.
  rewrite createAuditProduct_steps. cbv zeta.
  destruct (gatherMode gatherContext).
  - destruct graph as [graph |]; [| discriminate].
    destruct processedNavigation as [processedNavigation |]; [| discriminate].
    destruct (computeWasteWithTTIGraph _ graph simulator _ _)
      as [w1 [wastedMs | message]] eqn:Htti; [| discriminate].
    destruct (computeWasteWithGraph _ (getPessimisticGraphFCP _ _) simulator _ w1)
      as [w2 [fcp | message]] eqn:Hfcp; [| discriminate].
    destruct (computeWasteWithGraph _ (getPessimisticGraphLCP _ _) simulator _ w2)
      as [w3 [lcp | message]] eqn:Hlcp; [| discriminate].
    cbn [snd]. intros [= <-]. eexists _, _. split; [reflexivity |].
    split; [| congruence]. intros _.
    destruct (computeWasteWithTTIGraph_returned _ _ _ _ _ _ _ Htti) as (_ & _ & H1 & _).
    destruct (computeWasteWithGraph_returned _ _ _ _ _ _ _ Hfcp) as (_ & _ & H2 & _).
    destruct (computeWasteWithGraph_returned _ _ _ _ _ _ _ Hlcp) as (_ & _ & H3 & _).
    repeat split; assumption.
  - cbn [snd]. intros [= <-]. eexists _, _. split; [reflexivity |].
    split; [discriminate | intros _; split; reflexivity].
  - cbn [snd]. intros [= <-]. eexists _, _. split; [reflexivity |].
    split; [discriminate | intros _; split; reflexivity].
Qed.

(** X11. A call of [createAuditProduct] in navigation mode that returns has
    run three savings computations on graphs that share their records, and
    leaves every record as it found it, when the network nodes of each of
    the three graphs have pairwise distinct request identifiers. *)
Theorem createAuditProduct_restores (result : ByteEfficiencyProduct.t Headings)
    (graph : Graph) (simulator : Simulator) (processedNavigation : ProcessedNavigation)
    (gatherContext : GatherContext) (w : World) (product : Product Headings) :
  NoDup (requestIds (records w) graph) ->
  NoDup (requestIds (records w) (getPessimisticGraphFCP graph processedNavigation)) ->
  NoDup (requestIds (records w) (getPessimisticGraphLCP graph processedNavigation)) ->
  let run :=
    createAuditProduct result (Some graph) simulator (Some processedNavigation)
      gatherContext w in
  run.2 = Returned product ->
  forall r, records run.1 r = records w r.
Proof.
  intros Hgraph Hfcp Hlcp run. subst run.
  rewrite createAuditProduct_steps. cbv zeta.
  destruct (gatherMode gatherContext); [| intros _ r; reflexivity ..].
  destruct (computeWasteWithTTIGraph _ graph simulator _ _)
    as [w1 [wastedMs | message]] eqn:Hrun1; [| discriminate].
  destruct (computeWasteWithGraph _ (getPessimisticGraphFCP _ _) simulator _ w1)
    as [w2 [fcp | message]] eqn:Hrun2; [| discriminate].
  destruct (computeWasteWithGraph _ (getPessimisticGraphLCP _ _) simulator _ w2)
    as [w3 [lcp | message]] eqn:Hrun3; [| discriminate].
  intros _ r. cbn [fst records withLog].
  destruct (computeWasteWithTTIGraph_returned _ _ _ _ _ _ _ Hrun1) as (_ & _ & _ & H1).
  destruct (computeWasteWithGraph_returned _ _ _ _ _ _ _ Hrun2) as (_ & _ & _ & H2).
  destruct (computeWasteWithGraph_returned _ _ _ _ _ _ _ Hrun3) as (_ & _ & _ & H3).
  specialize (H1 Hgraph).
  assert (H2' : forall r, records w2 r = records w1 r).
  { apply H2. rewrite (requestIds_ext (records w) (records w1)); [exact Hfcp | exact H1]. }
  assert (H3' : forall r, records w3 r = records w2 r).
  { apply H3. rewrite (requestIds_ext (records w) (records w2)); [exact Hlcp |].
    intros r'. rewrite H2'. apply H1. }
  rewrite H3', H2'. apply H1.
Qed.

(** X12. The calls that [createAuditProduct] makes.  Outside navigation mode
    it never simulates: it asks the simulator for one conversion of the
    total wasted bytes and logs to the console.  In navigation mode a call
    that returns has made exactly six simulations, before and after the
    changes for the overall load, for FCP and for LCP, in that order. *)
Theorem createAuditProduct_calls (result : ByteEfficiencyProduct.t Headings)
    (graph : option Graph) (simulator : Simulator)
    (processedNavigation : option ProcessedNavigation)
    (gatherContext : GatherContext) (w : World) :
  let run := createAuditProduct result graph simulator processedNavigation gatherContext w in
  let sorted := sortByWastedBytes (arrays w (ByteEfficiencyProduct.items result)) in
  (gatherMode gatherContext <> navigation ->
   log run.1 = log w ++ [ComputeWastedMsFromWastedBytes (sumWastedBytes sorted);
                         ConsoleLog id 0 0])
  /\ (gatherMode gatherContext = navigation ->
      forall product,
        run.2 = Returned (Opportunity product) ->
        log run.1
        = log w ++ [Simulate (id +:+ "-overallLoad-before")%string;
                    Simulate (id +:+ "-overallLoad-after")%string;
                    Simulate (id +:+ "-fcp-before")%string;
                    Simulate (id +:+ "-fcp-after")%string;
                    Simulate (id +:+ "-lcp-before")%string;
                    Simulate (id +:+ "-lcp-after")%string;
                    ConsoleLog id (FCP (AuditProduct.metricSavings product))
                      (LCP (AuditProduct.metricSavings product))]).
Proof.
  intros run sorted. subst run.
  rewrite createAuditProduct_steps. cbv zeta. fold sorted.
  destruct (gatherMode gatherContext).
  - split; [congruence |]. intros _ product.
    destruct graph as [graph |]; [| discriminate].
    destruct processedNavigation as [processedNavigation |]; [| discriminate].
    destruct (computeWasteWithTTIGraph _ graph simulator _ _)
      as [w1 [wastedMs | message]] eqn:Hrun1; [| discriminate].
    destruct (computeWasteWithGraph _ (getPessimisticGraphFCP _ _) simulator _ w1)
      as [w2 [fcp | message]] eqn:Hrun2; [| discriminate].
    destruct (computeWasteWithGraph _ (getPessimisticGraphLCP _ _) simulator _ w2)
      as [w3 [lcp | message]] eqn:Hrun3; [| discriminate].
    cbn [fst snd]. intros [= <-]. cbn [log withLog].
    destruct (computeWasteWithTTIGraph_returned _ _ _ _ _ _ _ Hrun1) as (H1 & _).
    destruct (computeWasteWithGraph_returned _ _ _ _ _ _ _ Hrun2) as (H2 & _).
    destruct (computeWasteWithGraph_returned _ _ _ _ _ _ _ Hrun3) as (H3 & _).
    rewrite H3, H2, H1. cbn [log withArrays].
    rewrite <- !app_assoc. reflexivity.
  - split; [| discriminate]. intros _. reflexivity.
  - split; [| discriminate]. intros _. reflexivity.
Qed.

Lemma scoreForWastedMs_range (wastedMs : Q) :
  0 <= scoreForWastedMs wastedMs /\ scoreForWastedMs wastedMs <= 1.
Proof.
  destruct (scoreForWastedMs_pieces wastedMs) as [H | [H | [H | [H | H]]]]; lra.
Qed.

(** X13. The product that [createAuditProduct] returns: its score is the
    score of its numeric value and lies between 0 and 1; its details carry
    the same numeric value and, as overall byte savings, the sum of the
    wasted bytes of the items as the caller passed them, whatever their
    order; explanation and warnings are those of the detector; a display
    value of the detector is kept, and without one the product gets the
    byte-savings message exactly when the total is not 0. *)
Theorem createAuditProduct_product (result : ByteEfficiencyProduct.t Headings)
    (graph : option Graph) (simulator : Simulator)
    (processedNavigation : option ProcessedNavigation)
    (gatherContext : GatherContext) (w : World) (product : AuditProduct.t Headings) :
  (createAuditProduct result graph simulator processedNavigation gatherContext w).2
  = Returned (Opportunity product) ->
  let total := totalWastedBytes (arrays w (ByteEfficiencyProduct.items result)) in
  AuditProduct.score product = scoreForWastedMs (AuditProduct.numericValue product)
  /\ 0 <= AuditProduct.score product <= 1
  /\ AuditProduct.numericUnit product = "millisecond"
  /\ OpportunityDetails.overallSavingsMs (AuditProduct.details product)
     = AuditProduct.numericValue product
  /\ OpportunityDetails.overallSavingsBytes (AuditProduct.details product) == total
  /\ AuditProduct.explanation product = ByteEfficiencyProduct.explanation result
  /\ AuditProduct.warnings product = ByteEfficiencyProduct.warnings result
  /\ match ByteEfficiencyProduct.displayValue result with
     | Some message => AuditProduct.displayValue product = message
     | None =>
         (total == 0 -> AuditProduct.displayValue product = Text "")
         /\ (~ total == 0 ->
             exists wastedBytes,
               AuditProduct.displayValue product = DisplayValueByteSavings wastedBytes
               /\ wastedBytes == total)
     end.
Proof.
  intros Hrun total.
  destruct (createAuditProduct_returned _ _ _ _ _ _ _ Hrun)
    as (wastedMs & metricSavings & [= ->] & _).
  assert (Htotal : sumWastedBytes
                     (sortByWastedBytes (arrays w (ByteEfficiencyProduct.items result)))
                   == total).
  { rewrite sumWastedBytes_total. symmetry.
    apply totalWastedBytes_Permutation, sortByWastedBytes_Permutation. }
  unfold assembledProduct.
  cbn [AuditProduct.score AuditProduct.numericValue AuditProduct.numericUnit
       AuditProduct.details AuditProduct.explanation AuditProduct.warnings
       AuditProduct.displayValue OpportunityDetails.overallSavingsMs
       OpportunityDetails.overallSavingsBytes].
  split; [reflexivity |]. split; [apply scoreForWastedMs_range |].
  split; [reflexivity |]. split; [reflexivity |]. split; [exact Htotal |].
  split; [reflexivity |]. split; [reflexivity |].
  destruct (ByteEfficiencyProduct.displayValue result) as [message |]; [reflexivity |].
  destruct (Qeq_bool _ 0) eqn:Hzero.
  - apply Qeq_bool_iff in Hzero. split; [reflexivity |]. intros Hne. lra.
  - split.
    + intros Heq. rewrite <- Htotal in Heq. apply Qeq_bool_iff in Heq. congruence.
    + intros _. eexists. split; [reflexivity | exact Htotal].
Qed.

(** X14. In navigation mode the numeric value and the FCP and LCP savings of
    the product are non-negative multiples of 10: a negative value is never
    reported there.  In the other modes the FCP and LCP savings are 0 and the
    numeric value is what the simulator converts the total wasted bytes
    to. *)
Theorem createAuditProduct_savings (result : ByteEfficiencyProduct.t Headings)
    (graph : option Graph) (simulator : Simulator)
    (processedNavigation : option ProcessedNavigation)
    (gatherContext : GatherContext) (w : World) (product : AuditProduct.t Headings) :
  (createAuditProduct result graph simulator processedNavigation gatherContext w).2
  = Returned (Opportunity product) ->
  (gatherMode gatherContext = navigation ->
   multipleOf10 (AuditProduct.numericValue product)
   /\ multipleOf10 (FCP (AuditProduct.metricSavings product))
   /\ multipleOf10 (LCP (AuditProduct.metricSavings product))
   /\ 0 <= AuditProduct.numericValue product)
  /\ (gatherMode gatherContext <> navigation ->
      AuditProduct.metricSavings product = {| FCP := 0; LCP := 0 |}
      /\ AuditProduct.numericValue product
         = wastedMsFromWastedBytes simulator
             (sumWastedBytes
                (sortByWastedBytes (arrays w (ByteEfficiencyProduct.items result))))).
Proof.
  intros Hrun.
  destruct (createAuditProduct_returned _ _ _ _ _ _ _ Hrun)
    as (wastedMs & metricSavings & [= ->] & Hnavigation & Hother).
  cbn [assembledProduct AuditProduct.numericValue AuditProduct.metricSavings].
  split.
  - intros Hmode. destruct (Hnavigation Hmode) as (H1 & H2 & H3).
    repeat split; try assumption.
    destruct H1 as (n & Hn & ->). rewrite Zle_Qle in Hn.
    change (inject_Z 0) with 0 in Hn. lra.
  - intros Hmode. destruct (Hother Hmode) as [-> ->]. split; reflexivity.
Qed.

(** ** More on the sort *)

Lemma sortByWastedBytes_ranked (items : list ByteEfficiencyItem.t) :
  Sorted descendingByWastedBytes items -> sortByWastedBytes items = items.
Proof.
  induction items as [| item items IH]; intros Hsorted; [reflexivity |].
  apply Sorted_inv in Hsorted as [Hrest Hhd].
  cbn [sortByWastedBytes foldr]. fold (sortByWastedBytes items). rewrite (IH Hrest).
  destruct items as [| other rest]; [reflexivity |].
  cbn [insertByWastedBytes]. apply HdRel_inv in Hhd. unfold descendingByWastedBytes in Hhd.
  unfold Qlt_bool. apply Qle_bool_iff in Hhd. rewrite Hhd. reflexivity.
Qed.

Lemma insertByWastedBytes_stable (wastedBytes : Q) (item : ByteEfficiencyItem.t)
    (sorted : list ByteEfficiencyItem.t) :
  itemsWithWastedBytes wastedBytes (insertByWastedBytes item sorted)
  = itemsWithWastedBytes wastedBytes (item :: sorted).
Proof.
  unfold itemsWithWastedBytes.
  induction sorted as [| other rest IH]; [reflexivity |].
  cbn [insertByWastedBytes].
  destruct (Qlt_bool _ _) eqn:Hlt; [| reflexivity].
  apply Qlt_bool_true in Hlt.
  rewrite (filter_cons _ other), IH, !(filter_cons _ item), (filter_cons _ other).
  destruct (decide (Qeq_bool (ByteEfficiencyItem.wastedBytes other) wastedBytes = true))
    as [Hother | Hother]; [| reflexivity].
  destruct (decide (Qeq_bool (ByteEfficiencyItem.wastedBytes item) wastedBytes = true))
    as [Hitem | Hitem]; [| reflexivity].
  apply Qeq_bool_iff in Hother, Hitem. lra.
Qed.

Lemma sortByWastedBytes_stable (wastedBytes : Q) (items : list ByteEfficiencyItem.t) :
  itemsWithWastedBytes wastedBytes (sortByWastedBytes items)
  = itemsWithWastedBytes wastedBytes items.
Proof.
  induction items as [| item items IH]; [reflexivity |].
  cbn [sortByWastedBytes foldr]. fold (sortByWastedBytes items).
  rewrite insertByWastedBytes_stable. unfold itemsWithWastedBytes in *.
  rewrite !(filter_cons _ item), IH. reflexivity.
Qed.

(** X15. When the items of the detector are already ranked by descending
    wasted bytes, [createAuditProduct] leaves every array as it is: ranking
    twice is the same as ranking once. *)
Theorem createAuditProduct_keeps_ranked_items (result : ByteEfficiencyProduct.t Headings)
    (graph : option Graph) (simulator : Simulator)
    (processedNavigation : option ProcessedNavigation)
    (gatherContext : GatherContext) (w : World) (array : ref) :
  Sorted descendingByWastedBytes (arrays w (ByteEfficiencyProduct.items result)) ->
  arrays (createAuditProduct result graph simulator processedNavigation gatherContext w).1
    array
  = arrays w array.
Proof.
  intros Hsorted.
  destruct (createAuditProduct_run result graph simulator processedNavigation gatherContext w)
    as (-> & _).
  cbn [arrays withArrays]. rewrite (sortByWastedBytes_ranked _ Hsorted).
  destruct (decide (ByteEfficiencyProduct.items result = array)) as [<- | Hne].
  - apply fn_lookup_insert.
  - apply fn_lookup_insert_ne. exact Hne.
Qed.

(** X16. The ranking of [createAuditProduct] is stable: the items with any
    given number of wasted bytes stand in the array after the call in the
    order in which they stood before. *)
Theorem createAuditProduct_ranking_stable (result : ByteEfficiencyProduct.t Headings)
    (graph : option Graph) (simulator : Simulator)
    (processedNavigation : option ProcessedNavigation)
    (gatherContext : GatherContext) (w : World) (wastedBytes : Q) :
  itemsWithWastedBytes wastedBytes
    (arrays (createAuditProduct result graph simulator processedNavigation gatherContext w).1
       (ByteEfficiencyProduct.items result))
  = itemsWithWastedBytes wastedBytes (arrays w (ByteEfficiencyProduct.items result)).
Proof.
  destruct (createAuditProduct_run result graph simulator processedNavigation gatherContext w)
    as (-> & _).
  cbn [arrays withArrays]. rewrite fn_lookup_insert. apply sortByWastedBytes_stable.
Qed.


(** ** More on the entry point *)

Lemma existsb_hasTransferSize_false (networkRecords : list NetworkRequest.t) :
  existsb hasTransferSize networkRecords = false ->
  forall record, record ∈ networkRecords -> unmeasured (NetworkRequest.transferSize record).
Proof.
  induction networkRecords as [| first rest IH]; intros Hnone record Hin.
  - apply elem_of_nil in Hin. contradiction.
  - cbn [existsb] in Hnone. apply orb_false_iff in Hnone as [Hfirst Hrest].
    apply elem_of_cons in Hin as [-> | Hin]; [| exact (IH Hrest record Hin)].
    unfold hasTransferSize in Hfirst. unfold unmeasured.
    destruct (NetworkRequest.transferSize first) as [[q | | |] |];
      try exact I; try discriminate.
    cbn [Js.truthy] in Hfirst. apply negb_false_iff, Qeq_bool_iff in Hfirst. exact Hfirst.
Qed.

(** The run of [audit] once the network records have come back. *)
Lemma audit_steps (artifacts : Artifacts) (context : option Context) (w w1 : World)
    (networkRecords : list NetworkRequest.t) :
  NetworkRecords_request (devtoolsLog artifacts) context
    (withLog w (log w ++ [NetworkRecordsRequest])) = (w1, Returned networkRecords) ->
  let gatherContext := GatherContext_ artifacts in
  audit artifacts context w =
  if negb (existsb hasTransferSize networkRecords)
     && bool_decide (gatherMode gatherContext = timespan)
  then (w1, Returned (NotApplicable 1 true))
  else
    match Promise_all4
            (call DetectorRun (audit_ artifacts networkRecords context))
            (if bool_decide (gatherMode gatherContext = navigation) then
               graph ← call PageDependencyGraphRequest
                 (PageDependencyGraph_request (trace artifacts) (devtoolsLog artifacts)
                    (URL artifacts) context);
               mret (Some graph)
             else mret None)
            (call LoadSimulatorRequest
               (LoadSimulator_request (devtoolsLog artifacts)
                  (default noSettings (context ≫= settings)) context))
            (if bool_decide (gatherMode gatherContext = navigation) then
               processedNavigation ← call ProcessedNavigationRequest
                 (ProcessedNavigation_request (trace artifacts) context);
               mret (Some processedNavigation)
             else mret None)
            w1 with
    | (w2, Returned (result, graph, simulator, processedNavigation)) =>
        createAuditProduct result graph simulator processedNavigation gatherContext w2
    | (w2, Thrown message) => (w2, Thrown message)
    end.
Proof.
  intros Hrequest gatherContext. subst gatherContext.
  unfold audit, call, mbind, M_bind, emit. rewrite Hrequest.
  destruct (negb (existsb hasTransferSize networkRecords)
            && bool_decide (gatherMode (GatherContext_ artifacts) = timespan));
    [reflexivity |].
  destruct (Promise_all4 _ _ _ _ w1) as [w2 [[[[result graph] simulator] navigation] | message]];
    reflexivity.
Qed.

(** X17. [audit] returns a not-applicable product only through its short
    cut: the mode is timespan, the network records came back without any
    measured transfer size, the product is [{score: 1, notApplicable: true}]
    and nothing ran after the request for the network records. *)
Theorem audit_not_applicable_only_if (artifacts : Artifacts) (context : option Context)
    (w w' : World) (score : Q) (notApplicable : bool) :
  audit artifacts context w = (w', Returned (NotApplicable score notApplicable)) ->
  gatherMode (GatherContext_ artifacts) = timespan
  /\ score = 1
  /\ notApplicable = true
  /\ exists networkRecords,
      NetworkRecords_request (devtoolsLog artifacts) context
        (withLog w (log w ++ [NetworkRecordsRequest])) = (w', Returned networkRecords)
      /\ forall record, record ∈ networkRecords ->
           unmeasured (NetworkRequest.transferSize record).
Proof.
  destruct (NetworkRecords_request (devtoolsLog artifacts) context
              (withLog w (log w ++ [NetworkRecordsRequest])))
    as [w1 [networkRecords | message]] eqn:Hrequest.
  2:{ unfold audit, call, mbind, M_bind, emit. rewrite Hrequest. discriminate. }
  rewrite (audit_steps _ _ _ _ _ Hrequest). cbv zeta.
  destruct (negb (existsb hasTransferSize networkRecords)
            && bool_decide (gatherMode (GatherContext_ artifacts) = timespan)) eqn:Hshort.
  - intros [= <- <- <-].
    apply andb_true_iff in Hshort as [Hnone Hmode].
    apply negb_true_iff in Hnone. apply bool_decide_eq_true in Hmode.
    split; [exact Hmode |]. split; [reflexivity |]. split; [reflexivity |].
    exists networkRecords. split; [reflexivity |].
    apply existsb_hasTransferSize_false. exact Hnone.
  - destruct (Promise_all4 _ _ _ _ w1)
      as [w2 [[[[result graph] simulator] navigation] | message]]; [| discriminate].
    intros Hrun.
    assert (Hproduct : (createAuditProduct result graph simulator navigation
                          (GatherContext_ artifacts) w2).2
                       = Returned (NotApplicable score notApplicable))
      by (rewrite Hrun; reflexivity).
    destruct (createAuditProduct_returned _ _ _ _ _ _ _ Hproduct) as (? & ? & [=] & _).
Qed.

(** X18. Outside navigation mode, when the network records hold a measured
    transfer size or the mode is not timespan, and the detector and the
    request for the simulator return, [audit] is [createAuditProduct] on
    their results with no graph and no processed navigation; it then
    returns a product: it neither asks for a dependency graph nor fails for
    the lack of one. *)
Theorem audit_outside_navigation (artifacts : Artifacts) (context : option Context)
    (w w1 w2 w3 : World) (networkRecords : list NetworkRequest.t)
    (result : ByteEfficiencyProduct.t Headings) (simulator : Simulator) :
  gatherMode (GatherContext_ artifacts) <> navigation ->
  NetworkRecords_request (devtoolsLog artifacts) context
    (withLog w (log w ++ [NetworkRecordsRequest])) = (w1, Returned networkRecords) ->
  existsb hasTransferSize networkRecords = true
  \/ gatherMode (GatherContext_ artifacts) <> timespan ->
  audit_ artifacts networkRecords context (withLog w1 (log w1 ++ [DetectorRun]))
  = (w2, Returned result) ->
  LoadSimulator_request (devtoolsLog artifacts) (default noSettings (context ≫= settings))
    context (withLog w2 (log w2 ++ [LoadSimulatorRequest])) = (w3, Returned simulator) ->
  audit artifacts context w
  = createAuditProduct result None simulator None (GatherContext_ artifacts) w3
  /\ exists product, (audit artifacts context w).2 = Returned (Opportunity product).
Proof.
  intros Hmode Hrequest Hlong Hdetector Hsimulator.
  assert (Hrun : audit artifacts context w
                 = createAuditProduct result None simulator None (GatherContext_ artifacts) w3).
  { rewrite (audit_steps _ _ _ _ _ Hrequest). cbv zeta.
    assert (Hshort : negb (existsb hasTransferSize networkRecords)
                     && bool_decide (gatherMode (GatherContext_ artifacts) = timespan)
                     = false).
    { destruct Hlong as [-> | Hne]; [reflexivity |].
      rewrite (bool_decide_eq_false_2 _ Hne). apply andb_false_r. }
    rewrite Hshort, (bool_decide_eq_false_2 _ Hmode).
    unfold Promise_all4, settle, call, emit, mbind, M_bind, mret, M_ret in *.
    cbv beta iota. rewrite Hdetector. cbv beta iota. rewrite Hsimulator. reflexivity. }
  split; [exact Hrun |]. rewrite Hrun.
  destruct (createAuditProduct_run result None simulator None (GatherContext_ artifacts) w3)
    as (_ & _ & _ & _ & Hreturns & _).
  exact (Hreturns Hmode).
Qed.

(** X19. In navigation mode, when the detector and the three requests
    return, [audit] is [createAuditProduct] on their results, with the graph
    and the processed navigation present: the two precondition checks of
    [createAuditProduct] never fail in a run of [audit]. *)
Theorem audit_in_navigation (artifacts : Artifacts) (context : option Context)
    (w w1 w2 w3 w4 w5 : World) (networkRecords : list NetworkRequest.t)
    (result : ByteEfficiencyProduct.t Headings) (graph : Graph) (simulator : Simulator)
    (processedNavigation : ProcessedNavigation) :
  gatherMode (GatherContext_ artifacts) = navigation ->
  NetworkRecords_request (devtoolsLog artifacts) context
    (withLog w (log w ++ [NetworkRecordsRequest])) = (w1, Returned networkRecords) ->
  audit_ artifacts networkRecords context (withLog w1 (log w1 ++ [DetectorRun]))
  = (w2, Returned result) ->
  PageDependencyGraph_request (trace artifacts) (devtoolsLog artifacts) (URL artifacts)
    context (withLog w2 (log w2 ++ [PageDependencyGraphRequest])) = (w3, Returned graph) ->
  LoadSimulator_request (devtoolsLog artifacts) (default noSettings (context ≫= settings))
    context (withLog w3 (log w3 ++ [LoadSimulatorRequest])) = (w4, Returned simulator) ->
  ProcessedNavigation_request (trace artifacts) context
    (withLog w4 (log w4 ++ [ProcessedNavigationRequest]))
  = (w5, Returned processedNavigation) ->
  audit artifacts context w
  = createAuditProduct result (Some graph) simulator (Some processedNavigation)
      (GatherContext_ artifacts) w5
  /\ (neverThrows simulator ->
      exists product, (audit artifacts context w).2 = Returned (Opportunity product)).
Proof.
  intros Hmode Hrequest Hdetector Hgraph Hsimulator Hnavigation.
  assert (Hrun : audit artifacts context w
                 = createAuditProduct result (Some graph) simulator (Some processedNavigation)
                     (GatherContext_ artifacts) w5).
  { rewrite (audit_steps _ _ _ _ _ Hrequest). cbv zeta.
    rewrite Hmode, andb_false_r. cbn [bool_decide decide_rel].
    rewrite (bool_decide_eq_true_2 (navigation = navigation) eq_refl).
    unfold Promise_all4, settle, call, emit, mbind, M_bind, mret, M_ret in *.
    cbv beta iota. rewrite Hdetector. cbv beta iota. rewrite Hgraph.
    cbv beta iota. rewrite Hsimulator. cbv beta iota. rewrite Hnavigation. reflexivity. }
  split; [exact Hrun |]. intros Htotal. rewrite Hrun.
  destruct (createAuditProduct_run result (Some graph) simulator (Some processedNavigation)
              (GatherContext_ artifacts) w5) as (_ & _ & _ & Hreturns & _).
  apply Hreturns; [exact Hmode | eexists; reflexivity | eexists; reflexivity | exact Htotal].
Qed.


(** ** Request identifiers that are not unique *)

Lemma applyWastedBytes_lowers (wastedBytesByUrl : gmap string Q) (r : ref)
    (h : ref -> NodeRecord.t) (o : gmap string Q) (wastedBytes : Q) :
  wastedBytesByUrl !! NodeRecord.url (h r) = Some wastedBytes ->
  ~ wastedBytes == 0 ->
  applyWastedBytes wastedBytesByUrl (NetworkNode r) (h, o)
  = (<[r := NodeRecord.setTransferSize (h r)
              (Qmax (NodeRecord.transferSize (h r) - wastedBytes) 0)]> h,
     <[NodeRecord.requestId (h r) := NodeRecord.transferSize (h r)]> o).
Proof.
  intros Hentry Hnonzero.
  destruct (applyWastedBytes_step wastedBytesByUrl r h o)
    as [[_ [Hnone | (w0 & Hsome & Hzero)]] | (w0 & Hsome & _ & ->)].
  - congruence.
  - rewrite Hentry in Hsome. injection Hsome as <-. contradiction.
  - rewrite Hentry in Hsome. injection Hsome as <-. reflexivity.
Qed.

(** X20. The originals are remembered by request identifier.  When a graph
    consists of two network nodes with different records but the same
    request identifier, and both are lowered, a call that returns leaves the
    first record with the original transfer size of the second: the
    uniqueness of request identifiers is needed for the restoration. *)
Theorem computeWasteWithGraph_shared_requestId (results : list ByteEfficiencyItem.t)
    (simulator : Simulator) (options : option Options) (w : World) (a b : ref)
    (wastedBytesA wastedBytesB : Q) (waste : WasteWithGraph NodeTimings) :
  a <> b ->
  NodeRecord.requestId (records w a) = NodeRecord.requestId (records w b) ->
  effectiveWastedBytesByUrl results options !! NodeRecord.url (records w a)
  = Some wastedBytesA ->
  ~ wastedBytesA == 0 ->
  effectiveWastedBytesByUrl results options !! NodeRecord.url (records w b)
  = Some wastedBytesB ->
  ~ wastedBytesB == 0 ->
  let run :=
    computeWasteWithGraph results [NetworkNode a; NetworkNode b] simulator options w in
  run.2 = Returned waste ->
  NodeRecord.transferSize (records run.1 a) = NodeRecord.transferSize (records w b)
  /\ NodeRecord.transferSize (records run.1 b) = NodeRecord.transferSize (records w b).
Proof.
  intros Hne Hid HentryA HnonzeroA HentryB HnonzeroB run. subst run.
  rewrite computeWasteWithGraph_run. cbv zeta.
  destruct (simulation simulator (records w) _ _) as [before |]; [| discriminate].
  set (h := records w) in *.
  set (h1 := <[a := NodeRecord.setTransferSize (h a)
                      (Qmax (NodeRecord.transferSize (h a) - wastedBytesA) 0)]> h).
  assert (Hb1 : h1 b = h b) by (apply fn_lookup_insert_ne; exact Hne).
  set (h2 := <[b := NodeRecord.setTransferSize (h1 b)
                      (Qmax (NodeRecord.transferSize (h1 b) - wastedBytesB) 0)]> h1).
  set (o2 := <[NodeRecord.requestId (h1 b) := NodeRecord.transferSize (h1 b)]>
               (<[NodeRecord.requestId (h a) := NodeRecord.transferSize (h a)]>
                  (∅ : gmap string Q))).
  assert (Hlowered : traverse [NetworkNode a; NetworkNode b]
                       (applyWastedBytes (effectiveWastedBytesByUrl results options)) (h, ∅)
                     = (h2, o2)).
  { rewrite !traverse_cons.
    rewrite (applyWastedBytes_lowers _ a h ∅ wastedBytesA HentryA HnonzeroA). fold h1.
    rewrite (applyWastedBytes_lowers _ b h1 _ wastedBytesB);
      [reflexivity | rewrite Hb1; exact HentryB | exact HnonzeroB]. }
  rewrite Hlowered. cbn [fst snd].
  destruct (simulation simulator h2 _ _) as [after |]; [| discriminate].
  intros _. cbn [fst records withRecords].
  assert (Hid2 : forall r, NodeRecord.requestId (h2 r) = NodeRecord.requestId (h r)).
  { intros r. unfold h2.
    destruct (insert_setTransferSize_fields h1 b
                (Qmax (NodeRecord.transferSize (h1 b) - wastedBytesB) 0) r) as [-> _].
    unfold h1. apply insert_setTransferSize_fields. }
  assert (Ho2 : o2 !! NodeRecord.requestId (h b) = Some (NodeRecord.transferSize (h b))).
  { unfold o2. rewrite Hb1. apply lookup_insert_eq. }
  set (h3 := <[a := NodeRecord.setTransferSize (h2 a) (NodeRecord.transferSize (h b))]> h2).
  set (h4 := <[b := NodeRecord.setTransferSize (h3 b) (NodeRecord.transferSize (h b))]> h3).
  assert (Hrestored : traverse [NetworkNode a; NetworkNode b] (restoreTransferSize o2) (h2, tt)
                      = (h4, tt)).
  { rewrite !traverse_cons. unfold traverse, fold_left.
    unfold restoreTransferSize at 2. rewrite Hid2, Hid, Ho2. fold h3.
    unfold restoreTransferSize.
    assert (Hid3 : NodeRecord.requestId (h3 b) = NodeRecord.requestId (h b)).
    { unfold h3. destruct (insert_setTransferSize_fields h2 a
                             (NodeRecord.transferSize (h b)) b) as [-> _].
      apply Hid2. }
    rewrite Hid3, Ho2. reflexivity. }
  rewrite Hrestored. cbn [fst]. split.
  - unfold h4. rewrite fn_lookup_insert_ne by (intros Heq; apply Hne; symmetry; exact Heq).
    unfold h3. rewrite fn_lookup_insert. apply setTransferSize_fields.
  - unfold h4. rewrite fn_lookup_insert. apply setTransferSize_fields.
Qed.


(** ** Wasted bytes of resources that the graph does not contain *)

Lemma applyWastedBytes_unmatched (wastedBytesByUrl : gmap string Q) (graph : Graph)
    (h : ref -> NodeRecord.t) (o : gmap string Q) :
  (forall r, r ∈ networkRefs graph ->
     wastedBytesByUrl !! NodeRecord.url (h r) = None
     \/ exists wastedBytes,
          wastedBytesByUrl !! NodeRecord.url (h r) = Some wastedBytes /\ wastedBytes == 0) ->
  traverse graph (applyWastedBytes wastedBytesByUrl) (h, o) = (h, o).
Proof.
  induction graph as [| [r0 | c] graph IH]; intros Hunmatched; [reflexivity | |].
  - rewrite traverse_cons.
    destruct (applyWastedBytes_step wastedBytesByUrl r0 h o)
      as [[-> _] | (wastedBytes & Hentry & Hnonzero & _)].
    + apply IH. intros r Hr. apply Hunmatched. right. exact Hr.
    + destruct (Hunmatched r0 (ltac:(left))) as [Hnone | (w0 & Hsome & Hzero)].
      * congruence.
      * rewrite Hentry in Hsome. injection Hsome as <-. contradiction.
  - rewrite traverse_cons. apply IH. exact Hunmatched.
Qed.

(** X23. When the effective map has no non-zero entry for the url of any
    network node of the graph (the wasted bytes belong to resources that the
    graph does not contain) and the simulator is deterministic, a call
    whose first simulation returns [before] writes nothing to the records and
    returns savings 0 with [before] as both simulation results. *)
Theorem unmatched_urls_no_savings (results : list ByteEfficiencyItem.t) (graph : Graph)
    (simulator : Simulator) (options : option Options) (w : World)
    (before : SimulationResult) :
  (forall r, r ∈ networkRefs graph ->
     effectiveWastedBytesByUrl results options !! NodeRecord.url (records w r) = None
     \/ exists wastedBytes,
          effectiveWastedBytesByUrl results options !! NodeRecord.url (records w r)
          = Some wastedBytes
          /\ wastedBytes == 0) ->
  deterministic simulator ->
  simulation simulator (records w) graph (simulationLabel options "before")
  = Returned before ->
  let run := computeWasteWithGraph results graph simulator options w in
  records run.1 = records w
  /\ exists waste,
      run.2 = Returned waste
      /\ savings waste == 0
      /\ simulationBeforeChanges waste = before
      /\ simulationAfterChanges waste = before.
Proof.
  intros Hunmatched Hdet Hbefore run. subst run.
  rewrite computeWasteWithGraph_run. cbv zeta.
  rewrite Hbefore, (applyWastedBytes_unmatched _ _ _ _ Hunmatched). cbn [fst snd].
  rewrite (Hdet (records w) graph (simulationLabel options "after")
             (simulationLabel options "before")), Hbefore.
  rewrite restoreTransferSize_empty. cbn [fst snd records withRecords].
  split; [reflexivity |].
  eexists. split; [reflexivity |].
  cbn [savings simulationBeforeChanges simulationAfterChanges].
  split; [| split; reflexivity].
  apply roundedSavings_zero. lra.
Qed.

End Properties.


(** * Properties of the entry point that compare audits *)

(** X21. Outside navigation mode [audit] does not use the requests for the
    page dependency graph and for the processed navigation: two audits that
    differ only in these two collaborators run alike. *)
Theorem audit_ignores_navigation_requests (id : string)
    {NodeTimings ProcessedNavigation Headings Trace DevtoolsLog Url Settings : Type}
    (noSettings : Settings) (getLastLongTaskEndTime : NodeTimings -> Q)
    (getPessimisticGraphFCP getPessimisticGraphLCP : Graph -> ProcessedNavigation -> Graph)
    (NetworkRecords_request :
       DevtoolsLog -> option (Context Settings) -> M (list NetworkRequest.t))
    (audit_ :
       Artifacts Trace DevtoolsLog Url -> list NetworkRequest.t ->
       option (Context Settings) -> M (ByteEfficiencyProduct.t Headings))
    (PageDependencyGraph_request PageDependencyGraph_request' :
       Trace -> DevtoolsLog -> Url -> option (Context Settings) -> M Graph)
    (LoadSimulator_request :
       DevtoolsLog -> Settings -> option (Context Settings) -> M (Simulator NodeTimings))
    (ProcessedNavigation_request ProcessedNavigation_request' :
       Trace -> option (Context Settings) -> M ProcessedNavigation)
    (artifacts : Artifacts Trace DevtoolsLog Url) (context : option (Context Settings))
    (w : World) :
  gatherMode (GatherContext_ artifacts) <> navigation ->
  audit id noSettings getLastLongTaskEndTime getPessimisticGraphFCP getPessimisticGraphLCP
    NetworkRecords_request audit_ PageDependencyGraph_request LoadSimulator_request
    ProcessedNavigation_request artifacts context w
  = audit id noSettings getLastLongTaskEndTime getPessimisticGraphFCP getPessimisticGraphLCP
      NetworkRecords_request audit_ PageDependencyGraph_request' LoadSimulator_request
      ProcessedNavigation_request' artifacts context w.
Proof.
  intros Hmode. unfold audit. cbv zeta.
  rewrite !(bool_decide_eq_false_2 _ Hmode). reflexivity.
Qed.

Lemma Promise_all4_first_thrown {A B C D : Type} (a : M A) (b : M B) (c : M C) (d : M D)
    (w w' : World) (message : string) :
  a w = (w', Thrown message) ->
  (Promise_all4 a b c d w).2 = Thrown message.
Proof.
  intros Ha. unfold Promise_all4, settle, mbind, M_bind, mret, M_ret, throw.
  rewrite Ha.
  destruct (b w') as [wb [y | mb]]; destruct (c wb) as [wc [z | mc]];
    destruct (d wc) as [wd [u | md]]; reflexivity.
Qed.

(** X22. With the detector hook of the base class, which only throws, a run
    of [audit] that gets its network records and does not take the
    not-applicable short cut ends with the error 'audit_ unimplemented',
    whatever the other collaborators do. *)
Theorem audit_unimplemented (id : string)
    {NodeTimings ProcessedNavigation Headings Trace DevtoolsLog Url Settings : Type}
    (noSettings : Settings) (getLastLongTaskEndTime : NodeTimings -> Q)
    (getPessimisticGraphFCP getPessimisticGraphLCP : Graph -> ProcessedNavigation -> Graph)
    (NetworkRecords_request :
       DevtoolsLog -> option (Context Settings) -> M (list NetworkRequest.t))
    (PageDependencyGraph_request :
       Trace -> DevtoolsLog -> Url -> option (Context Settings) -> M Graph)
    (LoadSimulator_request :
       DevtoolsLog -> Settings -> option (Context Settings) -> M (Simulator NodeTimings))
    (ProcessedNavigation_request :
       Trace -> option (Context Settings) -> M ProcessedNavigation)
    (artifacts : Artifacts Trace DevtoolsLog Url) (context : option (Context Settings))
    (w w1 : World) (networkRecords : list NetworkRequest.t) :
  NetworkRecords_request (devtoolsLog artifacts) context
    (withLog w (log w ++ [NetworkRecordsRequest])) = (w1, Returned networkRecords) ->
  existsb hasTransferSize networkRecords = true
  \/ gatherMode (GatherContext_ artifacts) <> timespan ->
  (audit (Headings := Headings) id noSettings getLastLongTaskEndTime getPessimisticGraphFCP
     getPessimisticGraphLCP NetworkRecords_request Base.audit_ PageDependencyGraph_request
     LoadSimulator_request ProcessedNavigation_request artifacts context w).2
  = Thrown "audit_ unimplemented".
Proof.
  intros Hrequest Hlong.
  rewrite (audit_steps id noSettings getLastLongTaskEndTime getPessimisticGraphFCP
             getPessimisticGraphLCP NetworkRecords_request Base.audit_
             PageDependencyGraph_request LoadSimulator_request ProcessedNavigation_request
             artifacts context w w1 networkRecords Hrequest).
  cbv zeta.
  assert (Hshort : negb (existsb hasTransferSize networkRecords)
                   && bool_decide (gatherMode (GatherContext_ artifacts) = timespan)
                   = false).
  { destruct Hlong as [-> | Hne]; [reflexivity |].
    rewrite (bool_decide_eq_false_2 _ Hne). apply andb_false_r. }
  rewrite Hshort.
  match goal with
  | |- context [Promise_all4 ?a ?b ?c ?d w1] =>
      pose proof (Promise_all4_first_thrown a b c d w1
                    (withLog w1 (log w1 ++ [DetectorRun])) "audit_ unimplemented" eq_refl)
        as Hall;
      destruct (Promise_all4 a b c d w1)
        as [w2 [[[[result graph] simulator] navigation] | m]] eqn:Hrun
  end.
  - discriminate.
  - cbn [snd] in *. injection Hall as ->. reflexivity.
Qed.

(** * The properties on the example page *)

Lemma example_requestIds_NoDup :
  NoDup (requestIds (records Page.world) Page.graph).
Proof. apply (bool_decide_unpack _). vm_compute. exact I. Defined.

Lemma example_simulator_neverThrows : neverThrows Page.simulator.
Proof. intros h graph label. eexists. reflexivity. Defined.

Lemma example_simulator_deterministic : deterministic Page.simulator.
Proof. intros h graph label1 label2. reflexivity. Defined.

Lemma scoreForWastedMs_curve_witness :
  scoreForWastedMs (-40) == 1
  /\ scoreForWastedMs 6000 == 0
  /\ scoreForWastedMs 750 <= scoreForWastedMs 40.
Proof.
  destruct scoreForWastedMs_curve as (Hneg & _ & _ & Hzero & Hmono & _).
  split; [apply Hneg; vm_compute; discriminate |].
  split; [apply Hzero; vm_compute; discriminate |].
  apply Hmono; vm_compute; discriminate.
Defined.


Lemma estimateTransferSize_without_record_witness :
  nearestInteger (1234 * 0.33) (estimateTransferSize None (Js.Num 1234) (Some "Script"))
  /\ nearestInteger (1234 * 0.5) (estimateTransferSize None (Js.Num 1234) (Some "Image"))
  /\ Js.le (Js.Num 0) (estimateTransferSize None Js.PosInf None).
Proof.
  destruct estimateTransferSize_without_record as (_ & Hnearest & _ & _ & _ & Hnonneg).
  destruct (Hnearest 1234) as (_ & Hscript & _ & Hother).
  split; [exact Hscript |]. split.
  - apply Hother; discriminate.
  - apply Hnonneg. exact I.
Defined.

Lemma computeWasteWithGraph_restores_witness :
  let run :=
    computeWasteWithGraph "unused-javascript" Page.findings Page.graph
      Page.simulator None Page.world in
  (exists waste, run.2 = Returned waste)
  /\ records run.1 0%nat = Page.script
  /\ records run.1 1%nat = Page.stylesheet.
Proof.
  pose proof (computeWasteWithGraph_restores "unused-javascript" Page.findings
                Page.graph Page.simulator None Page.world
                example_requestIds_NoDup) as H.
  cbv zeta in H. destruct H as (Hrestored & _ & _ & Hreturns).
  destruct (Hreturns example_simulator_neverThrows) as [waste Hwaste].
  split; [exists waste; exact Hwaste |].
  split; apply (Hrestored waste Hwaste).
Defined.

(** C1, as stated, fails: a wasted-bytes entry of 20000 for the script lowers
    its transfer size to 0, the second simulation throws, and the call ends
    with the transfer size still 0 instead of 12500. *)
Lemma computeWasteWithGraph_keeps_lowered_sizes_on_error :
  let run :=
    computeWasteWithGraph "unused-javascript"
      [ {| ByteEfficiencyItem.url := "https://example.com/app.js";
           ByteEfficiencyItem.wastedBytes := 20000 |} ]
      Page.graph Page.fragileSimulator None Page.world in
  run.2 = Thrown "empty response"
  /\ NodeRecord.transferSize (records Page.world 0%nat) == 12500
  /\ NodeRecord.transferSize (records run.1 0%nat) == 0.
Proof. repeat split. Qed.

Lemma applyWastedBytes_traversal_witness :
  let wastedBytesByUrl : gmap string Q :=
    {[ "https://example.com/app.js" := 5000; "https://example.com/style.css" := 0 ]} in
  let h' := (traverse Page.graph (applyWastedBytes wastedBytesByUrl)
               (Page.pageRecords, ∅)).1 in
  h' 1%nat = Page.stylesheet
  /\ NodeRecord.transferSize (h' 0%nat) = Qmax (12500 - 5000) 0
  /\ NodeRecord.transferSize (h' 0%nat) <= 12500.
Proof.
  intros wastedBytesByUrl h'. subst h'.
  split; [| split].
  - apply (applyWastedBytes_traversal wastedBytesByUrl Page.graph
             Page.pageRecords 1%nat).
    right; right. exists 0. split; [reflexivity | reflexivity].
  - apply (applyWastedBytes_traversal wastedBytesByUrl Page.graph
             Page.pageRecords 0%nat).
    + apply (bool_decide_unpack _). vm_compute. exact I.
    + apply (bool_decide_unpack _). vm_compute. exact I.
    + reflexivity.
    + vm_compute; discriminate.
  - apply (applyWastedBytes_traversal wastedBytesByUrl Page.graph
             Page.pageRecords 0%nat).
    + intros url wastedBytes Hlookup.
      destruct (decide (url = "https://example.com/app.js")) as [-> | Hne1].
      { vm_compute in Hlookup. injection Hlookup as <-. vm_compute; discriminate. }
      destruct (decide (url = "https://example.com/style.css")) as [-> | Hne2].
      { vm_compute in Hlookup. injection Hlookup as <-. vm_compute; discriminate. }
      subst wastedBytesByUrl.
      rewrite lookup_insert_ne in Hlookup by congruence.
      rewrite lookup_singleton_ne in Hlookup by congruence.
      discriminate.
    + vm_compute; discriminate.
Defined.

(** C2, as stated, fails: the entry -5000 for the script is not positive,
    yet the traversal overwrites the transfer size of the script, and it
    grows from 12500 to 17500. *)
Lemma applyWastedBytes_negative_entry :
  let wastedBytesByUrl : gmap string Q := {[ "https://example.com/app.js" := -5000 ]} in
  let h' := (traverse Page.graph (applyWastedBytes wastedBytesByUrl)
               (Page.pageRecords, ∅)).1 in
  wastedBytesByUrl !! NodeRecord.url (Page.pageRecords 0%nat) = Some (-5000)
  /\ ~ 0 < -5000
  /\ NodeRecord.transferSize (Page.pageRecords 0%nat) == 12500
  /\ NodeRecord.transferSize (h' 0%nat) == 17500.
Proof.
  repeat split. intros H. vm_compute in H. discriminate.
Qed.


Lemma empty_map_no_savings_witness :
  let options :=
    Some {| label := Some "fcp"; includeLoad := None;
            providedWastedBytesByUrl := Some ∅ |} in
  let run :=
    computeWasteWithGraph "unused-javascript" Page.findings Page.graph
      Page.simulator options Page.world in
  records run.1 = Page.pageRecords
  /\ exists waste,
      run.2 = Returned waste
      /\ savings waste == 0
      /\ simulationBeforeChanges waste = {| timeInMs := 15500 / 125; nodeTimings := tt |}
      /\ simulationAfterChanges waste = {| timeInMs := 15500 / 125; nodeTimings := tt |}.
Proof.
  intros options run. subst run.
  pose proof (empty_map_no_savings "unused-javascript" Page.findings
                Page.graph Page.simulator options Page.world
                {| timeInMs := 15500 / 125; nodeTimings := tt |}) as H.
  cbv zeta in H. destruct H as (_ & Hrecords & Hwaste).
  - left. reflexivity.
  - exact example_simulator_deterministic.
  - vm_compute. reflexivity.
  - split; [exact Hrecords | exact Hwaste].
Defined.

Lemma createAuditProduct_preconditions_witness :
  let create graph processedNavigation mode :=
    createAuditProduct "unused-javascript" (fun _ : unit => 0)
      (fun graph (_ : unit) => graph) (fun graph (_ : unit) => graph) Page.detected graph
      Page.simulator processedNavigation {| gatherMode := mode |} Page.world in
  ((create None (Some tt) navigation).2
   = Thrown "Page dependency graph should always be computed in navigation mode"
   /\ log (create None (Some tt) navigation).1 = [])
  /\ ((create (Some Page.graph) None navigation).2
      = Thrown "Processed navigation should always be computed in navigation mode"
      /\ log (create (Some Page.graph) None navigation).1 = [])
  /\ (exists product,
        (create (Some Page.graph) (Some tt) navigation).2 = Returned (Opportunity product))
  /\ (exists product, (create None None timespan).2 = Returned (Opportunity product)).
Proof.
  intros create. subst create. cbv beta.
  split; [| split; [| split]].
  - pose proof (createAuditProduct_preconditions "unused-javascript"
                  (fun _ : unit => 0) (fun graph (_ : unit) => graph)
                  (fun graph (_ : unit) => graph)
                  Page.detected None Page.simulator (Some tt)
                  {| gatherMode := navigation |} Page.world) as H.
    cbv zeta in H. destruct H as (Hthrows & _ & _).
    destruct (Hthrows eq_refl (or_introl eq_refl)) as (Hmessage & Hlog & _).
    split; [exact Hmessage | exact Hlog].
  - pose proof (createAuditProduct_preconditions "unused-javascript"
                  (fun _ : unit => 0) (fun graph (_ : unit) => graph)
                  (fun graph (_ : unit) => graph)
                  Page.detected (Some Page.graph) Page.simulator None
                  {| gatherMode := navigation |} Page.world) as H.
    cbv zeta in H. destruct H as (Hthrows & _ & _).
    destruct (Hthrows eq_refl (or_intror eq_refl)) as (Hmessage & Hlog & _).
    split; [exact Hmessage | exact Hlog].
  - pose proof (createAuditProduct_preconditions "unused-javascript"
                  (fun _ : unit => 0) (fun graph (_ : unit) => graph)
                  (fun graph (_ : unit) => graph)
                  Page.detected (Some Page.graph) Page.simulator (Some tt)
                  {| gatherMode := navigation |} Page.world) as H.
    cbv zeta in H. destruct H as (_ & Hreturns & _).
    apply Hreturns.
    + reflexivity.
    + eexists; reflexivity.
    + eexists; reflexivity.
    + exact example_simulator_neverThrows.
  - pose proof (createAuditProduct_preconditions "unused-javascript"
                  (fun _ : unit => 0) (fun graph (_ : unit) => graph)
                  (fun graph (_ : unit) => graph)
                  Page.detected None Page.simulator None
                  {| gatherMode := timespan |} Page.world) as H.
    cbv zeta in H. destruct H as (_ & _ & Hreturns).
    apply Hreturns. discriminate.
Defined.

Lemma createAuditProduct_sorts_in_place_witness :
  let run :=
    createAuditProduct "unused-javascript" (fun _ : unit => 0)
      (fun graph (_ : unit) => graph) (fun graph (_ : unit) => graph) Page.detected None
      Page.simulator None {| gatherMode := snapshot |} Page.world in
  ByteEfficiencyItem.wastedBytes <$> arrays Page.world 0%nat = [1000; 5000; 2000]
  /\ ByteEfficiencyItem.wastedBytes <$> arrays run.1 0%nat = [5000; 2000; 1000]
  /\ arrays run.1 0%nat = sortByWastedBytes (arrays Page.world 0%nat)
  /\ arrays run.1 1%nat = arrays Page.world 1%nat.
Proof.
  pose proof (createAuditProduct_sorts_in_place "unused-javascript"
                (fun _ : unit => 0) (fun graph (_ : unit) => graph)
                (fun graph (_ : unit) => graph)
                Page.detected None Page.simulator None
                {| gatherMode := snapshot |} Page.world) as H.
  cbv zeta in H. destruct H as (Hsorted & _ & _ & Hothers & _).
  split; [reflexivity |]. split; [vm_compute; reflexivity |].
  split; [exact Hsorted |].
  apply Hothers. discriminate.
Defined.

Lemma audit_not_applicable_witness :
  audit (Headings := unit) "unused-javascript" tt (fun _ : unit => 0)
    (fun graph (_ : unit) => graph) (fun graph (_ : unit) => graph)
    (fun _ _ => mret Page.idleRecords)
    (fun _ _ _ => throw "audit_ unimplemented")
    (fun _ _ _ _ => mret Page.graph)
    (fun _ _ _ => mret Page.simulator)
    (fun _ _ => mret tt)
    Page.timespanArtifacts None Page.world
  = (withLog Page.world [NetworkRecordsRequest], Returned (NotApplicable 1 true)).
Proof.
  apply (audit_not_applicable (Headings := unit) "unused-javascript" tt
           (fun _ : unit => 0) (fun graph (_ : unit) => graph)
           (fun graph (_ : unit) => graph)
           (fun _ _ => mret Page.idleRecords)
           (fun _ _ _ => throw "audit_ unimplemented")
           (fun _ _ _ _ => mret Page.graph)
           (fun _ _ _ => mret Page.simulator)
           (fun _ _ => mret tt)
           Page.timespanArtifacts None Page.world
           (withLog Page.world [NetworkRecordsRequest]) Page.idleRecords).
  - reflexivity.
  - intros record Hrecord.
    apply elem_of_cons in Hrecord as [-> | Hrecord]; [exact I |].
    apply elem_of_cons in Hrecord as [-> | Hrecord]; [reflexivity |].
    apply elem_of_nil in Hrecord. contradiction.
  - reflexivity.
Defined.

(** ** Two scenarios of the specification, computed *)

(** One resource flagged with 5000 wasted bytes: the simulated load goes
    from 124 ms to 84 ms, the savings are 40 ms, and the score of 40 ms lies
    on the first segment of the curve. *)
Example savings_of_one_flagged_resource :
  let run :=
    computeWasteWithGraph "unused-javascript"
      [ {| ByteEfficiencyItem.url := "https://example.com/app.js";
           ByteEfficiencyItem.wastedBytes := 5000 |} ]
      Page.graph Page.simulator None Page.world in
  (exists waste, run.2 = Returned waste /\ savings waste == 40)
  /\ log run.1 = [Simulate "unused-javascript--before"; Simulate "unused-javascript--after"]
  /\ scoreForWastedMs 40 == 1 - 40 * (0.25 / 300).
Proof.
  split; [eexists; split; [reflexivity | reflexivity] |].
  split; reflexivity.
Qed.

(** A detector that reports no item, outside navigation mode: the product
    has numeric value 0, score 1 and an empty display value. *)
Example product_without_items :
  let run :=
    createAuditProduct "unused-javascript" (fun _ : unit => 0)
      (fun graph (_ : unit) => graph) (fun graph (_ : unit) => graph)
      Page.detected None Page.simulator None {| gatherMode := timespan |}
      (withArrays Page.world (fun _ => [])) in
  exists product,
    run.2 = Returned (Opportunity product)
    /\ AuditProduct.numericValue product == 0
    /\ AuditProduct.score product == 1
    /\ AuditProduct.displayValue product = Text ""
    /\ AuditProduct.metricSavings product = {| FCP := 0; LCP := 0 |}.
Proof.
  eexists. split; [reflexivity |]. repeat split.
Qed.

(** ** The further properties on the example page *)

Lemma scoreForWastedMs_strictly_decreasing_witness :
  scoreForWastedMs 200 < scoreForWastedMs 100.
Proof.
  apply (scoreForWastedMs_strictly_decreasing 100 200); vm_compute; discriminate.
Defined.

Lemma estimateTransferSize_heuristic_bounds_witness :
  exists n : Z,
    estimateTransferSize None (Js.Num 1001) (Some "Image") = Js.Num (inject_Z n)
    /\ (0 <= n)%Z
    /\ inject_Z n <= 1001.
Proof.
  apply (estimateTransferSize_heuristic_bounds 1001 (Some "Image")).
  vm_compute; discriminate.
Defined.

Lemma estimateTransferSize_heuristic_order_witness :
  Js.le (estimateTransferSize None (Js.Num 1000) (Some "Image"))
        (estimateTransferSize None (Js.Num 2000) (Some "Image"))
  /\ Js.le (estimateTransferSize None (Js.Num 1000) (Some "Stylesheet"))
           (estimateTransferSize None (Js.Num 1000) (Some "Script")).
Proof.
  destruct (estimateTransferSize_heuristic_order 1000 2000 (Some "Image"))
    as (Hgrows & Hkinds & _).
  - vm_compute; discriminate.
  - vm_compute; discriminate.
  - split; [exact Hgrows | exact Hkinds].
Defined.

Lemma estimateTransferSize_inlined_witness :
  estimateTransferSize (Some Page.compressedDocument) (Js.Num 16000) (Some "Script")
  = Js.Num 4000
  /\ Js.le (estimateTransferSize (Some Page.compressedDocument) (Js.Num 500) (Some "Script"))
           (Js.Num 500).
Proof.
  destruct (estimateTransferSize_inlined Page.compressedDocument 500 4000 16000
              (Some "Script")) as (Hwhole & _ & Hpart);
    try reflexivity; try discriminate; try (vm_compute; discriminate).
  split; [exact Hwhole | exact Hpart].
Defined.


Lemma provided_map_overrides_items_witness :
  let options :=
    Some {| label := None; includeLoad := None;
            providedWastedBytesByUrl := Some {[ "https://example.com/app.js" := 5000 ]} |} in
  computeWasteWithGraph "unused-javascript" Page.findings Page.graph Page.simulator
    options Page.world
  = computeWasteWithGraph "unused-javascript" [] Page.graph Page.simulator options
      Page.world.
Proof.
  apply (provided_map_overrides_items "unused-javascript" (fun _ : unit => 0)
           Page.findings [] Page.graph Page.simulator _ Page.world
           {[ "https://example.com/app.js" := 5000 ]}).
  reflexivity.
Defined.


Lemma createAuditProduct_navigation_returns :
  exists product,
    (createAuditProduct "unused-javascript" (fun _ : unit => 0)
       (fun graph (_ : unit) => graph) (fun graph (_ : unit) => graph) Page.detected
       (Some Page.graph) Page.simulator (Some tt) {| gatherMode := navigation |}
       Page.world).2 = Returned (Opportunity product).
Proof.
  pose proof (createAuditProduct_run "unused-javascript" (fun _ : unit => 0)
                (fun graph (_ : unit) => graph) (fun graph (_ : unit) => graph)
                Page.detected (Some Page.graph) Page.simulator (Some tt)
                {| gatherMode := navigation |} Page.world) as H.
  cbv zeta in H. destruct H as (_ & _ & _ & Hreturns & _).
  apply Hreturns.
  - reflexivity.
  - eexists; reflexivity.
  - eexists; reflexivity.
  - exact example_simulator_neverThrows.
Defined.

Lemma createAuditProduct_restores_witness :
  let run :=
    createAuditProduct "unused-javascript" (fun _ : unit => 0)
      (fun graph (_ : unit) => graph) (fun graph (_ : unit) => graph) Page.detected
      (Some Page.graph) Page.simulator (Some tt) {| gatherMode := navigation |}
      Page.world in
  records run.1 0%nat = Page.script /\ records run.1 1%nat = Page.stylesheet.
Proof.
  destruct createAuditProduct_navigation_returns as [product Hproduct].
  pose proof (createAuditProduct_restores "unused-javascript" (fun _ : unit => 0)
                (fun graph (_ : unit) => graph) (fun graph (_ : unit) => graph)
                Page.detected Page.graph Page.simulator tt {| gatherMode := navigation |}
                Page.world (Opportunity product) example_requestIds_NoDup
                example_requestIds_NoDup example_requestIds_NoDup Hproduct) as Hrestored.
  split; apply Hrestored.
Defined.

Lemma createAuditProduct_product_witness :
  exists product,
    (createAuditProduct "unused-javascript" (fun _ : unit => 0)
       (fun graph (_ : unit) => graph) (fun graph (_ : unit) => graph) Page.detected
       (Some Page.graph) Page.simulator (Some tt) {| gatherMode := navigation |}
       Page.world).2 = Returned (Opportunity product)
    /\ 0 <= AuditProduct.score product <= 1
    /\ OpportunityDetails.overallSavingsBytes (AuditProduct.details product) == 8000.
Proof.
  destruct createAuditProduct_navigation_returns as [product Hproduct].
  exists product. split; [exact Hproduct |].
  destruct (createAuditProduct_product "unused-javascript" (fun _ : unit => 0)
              (fun graph (_ : unit) => graph) (fun graph (_ : unit) => graph)
              Page.detected (Some Page.graph) Page.simulator (Some tt)
              {| gatherMode := navigation |} Page.world product Hproduct)
    as (_ & Hscore & _ & _ & Hbytes & _).
  split; [exact Hscore | exact Hbytes].
Defined.

Lemma createAuditProduct_savings_witness :
  exists product,
    (createAuditProduct "unused-javascript" (fun _ : unit => 0)
       (fun graph (_ : unit) => graph) (fun graph (_ : unit) => graph) Page.detected
       (Some Page.graph) Page.simulator (Some tt) {| gatherMode := navigation |}
       Page.world).2 = Returned (Opportunity product)
    /\ multipleOf10 (AuditProduct.numericValue product)
    /\ multipleOf10 (FCP (AuditProduct.metricSavings product))
    /\ multipleOf10 (LCP (AuditProduct.metricSavings product))
    /\ 0 <= AuditProduct.numericValue product.
Proof.
  destruct createAuditProduct_navigation_returns as [product Hproduct].
  exists product. split; [exact Hproduct |].
  apply (createAuditProduct_savings "unused-javascript" (fun _ : unit => 0)
           (fun graph (_ : unit) => graph) (fun graph (_ : unit) => graph)
           Page.detected (Some Page.graph) Page.simulator (Some tt)
           {| gatherMode := navigation |} Page.world product Hproduct).
  reflexivity.
Defined.

Lemma createAuditProduct_keeps_ranked_items_witness :
  arrays (createAuditProduct "unused-javascript" (fun _ : unit => 0)
            (fun graph (_ : unit) => graph) (fun graph (_ : unit) => graph) Page.detected
            None Page.simulator None {| gatherMode := snapshot |} Page.rankedWorld).1 0%nat
  = arrays Page.rankedWorld 0%nat.
Proof.
  apply (createAuditProduct_keeps_ranked_items "unused-javascript" (fun _ : unit => 0)
           (fun graph (_ : unit) => graph) (fun graph (_ : unit) => graph) Page.detected
           None Page.simulator None {| gatherMode := snapshot |} Page.rankedWorld 0%nat).
  apply sortByWastedBytes_Sorted.
Defined.

Lemma computeWasteWithGraph_shared_requestId_witness :
  let run :=
    computeWasteWithGraph "unused-javascript" Page.findings
      [NetworkNode 0%nat; NetworkNode 1%nat] Page.simulator None Page.twinWorld in
  NodeRecord.transferSize (records Page.twinWorld 0%nat) = 12500
  /\ NodeRecord.transferSize (records run.1 0%nat) = 3000
  /\ NodeRecord.transferSize (records run.1 1%nat) = 3000.
Proof.
  destruct (computeWasteWithGraph_returns "unused-javascript" Page.findings
              [NetworkNode 0%nat; NetworkNode 1%nat] Page.simulator None Page.twinWorld
              example_simulator_neverThrows) as (w' & waste & Hrun & _).
  split; [reflexivity |].
  apply (computeWasteWithGraph_shared_requestId "unused-javascript" Page.findings
           Page.simulator None Page.twinWorld 0%nat 1%nat 5000 1000 waste).
  - discriminate.
  - reflexivity.
  - vm_compute; reflexivity.
  - vm_compute; discriminate.
  - vm_compute; reflexivity.
  - vm_compute; discriminate.
  - rewrite Hrun. reflexivity.
Defined.

Lemma audit_not_applicable_only_if_witness :
  gatherMode (GatherContext_ Page.timespanArtifacts) = timespan
  /\ exists networkRecords : list NetworkRequest.t,
      forall record, record ∈ networkRecords ->
        unmeasured (NetworkRequest.transferSize record).
Proof.
  assert (Hrun : audit (Headings := unit) "unused-javascript" tt
                   (fun _ : unit => 0) (fun graph (_ : unit) => graph)
                   (fun graph (_ : unit) => graph)
                   (fun _ _ => mret Page.idleRecords)
                   (fun _ _ _ => throw "audit_ unimplemented")
                   (fun _ _ _ _ => mret Page.graph)
                   (fun _ _ _ => mret Page.simulator)
                   (fun _ _ => mret tt)
                   Page.timespanArtifacts None Page.world
                 = (withLog Page.world [NetworkRecordsRequest],
                    Returned (NotApplicable 1 true))) by reflexivity.
  destruct (audit_not_applicable_only_if (Headings := unit) "unused-javascript" tt
              (fun _ : unit => 0) (fun graph (_ : unit) => graph)
              (fun graph (_ : unit) => graph)
              (fun _ _ => mret Page.idleRecords)
              (fun _ _ _ => throw "audit_ unimplemented")
              (fun _ _ _ _ => mret Page.graph)
              (fun _ _ _ => mret Page.simulator)
              (fun _ _ => mret tt)
              Page.timespanArtifacts None Page.world
              (withLog Page.world [NetworkRecordsRequest]) 1 true Hrun)
    as (Hmode & _ & _ & networkRecords & _ & Hnone).
  split; [exact Hmode |]. exists networkRecords. exact Hnone.
Defined.

Lemma audit_outside_navigation_witness :
  exists product,
    (audit "unused-javascript" tt (fun _ : unit => 0) (fun graph (_ : unit) => graph)
       (fun graph (_ : unit) => graph)
       (fun _ _ => mret [Page.document])
       (fun _ _ _ => mret Page.detected)
       (fun _ _ _ _ => throw "no trace")
       (fun _ _ _ => mret Page.simulator)
       (fun _ _ => throw "no trace")
       Page.timespanArtifacts None Page.world).2 = Returned (Opportunity product).
Proof.
  apply (audit_outside_navigation "unused-javascript" tt (fun _ : unit => 0)
           (fun graph (_ : unit) => graph) (fun graph (_ : unit) => graph)
           (fun _ _ => mret [Page.document])
           (fun _ _ _ => mret Page.detected)
           (fun _ _ _ _ => throw "no trace")
           (fun _ _ _ => mret Page.simulator)
           (fun _ _ => throw "no trace")
           Page.timespanArtifacts None Page.world
           (withLog Page.world [NetworkRecordsRequest])
           (withLog Page.world [NetworkRecordsRequest; DetectorRun])
           (withLog Page.world [NetworkRecordsRequest; DetectorRun; LoadSimulatorRequest])
           [Page.document] Page.detected Page.simulator).
  - discriminate.
  - reflexivity.
  - left. reflexivity.
  - reflexivity.
  - reflexivity.
Defined.

Lemma audit_in_navigation_witness :
  exists product,
    (audit "unused-javascript" tt (fun _ : unit => 0) (fun graph (_ : unit) => graph)
       (fun graph (_ : unit) => graph)
       (fun _ _ => mret [Page.document])
       (fun _ _ _ => mret Page.detected)
       (fun _ _ _ _ => mret Page.graph)
       (fun _ _ _ => mret Page.simulator)
       (fun _ _ => mret tt)
       Page.navigationArtifacts None Page.world).2 = Returned (Opportunity product).
Proof.
  apply (audit_in_navigation "unused-javascript" tt (fun _ : unit => 0)
           (fun graph (_ : unit) => graph) (fun graph (_ : unit) => graph)
           (fun _ _ => mret [Page.document])
           (fun _ _ _ => mret Page.detected)
           (fun _ _ _ _ => mret Page.graph)
           (fun _ _ _ => mret Page.simulator)
           (fun _ _ => mret tt)
           Page.navigationArtifacts None Page.world
           (withLog Page.world [NetworkRecordsRequest])
           (withLog Page.world [NetworkRecordsRequest; DetectorRun])
           (withLog Page.world
              [NetworkRecordsRequest; DetectorRun; PageDependencyGraphRequest])
           (withLog Page.world
              [NetworkRecordsRequest; DetectorRun; PageDependencyGraphRequest;
               LoadSimulatorRequest])
           (withLog Page.world
              [NetworkRecordsRequest; DetectorRun; PageDependencyGraphRequest;
               LoadSimulatorRequest; ProcessedNavigationRequest])
           [Page.document] Page.detected Page.graph Page.simulator tt);
    try reflexivity.
  exact example_simulator_neverThrows.
Defined.

Lemma audit_ignores_navigation_requests_witness :
  audit "unused-javascript" tt (fun _ : unit => 0) (fun graph (_ : unit) => graph)
    (fun graph (_ : unit) => graph)
    (fun _ _ => mret [Page.document])
    (fun _ _ _ => mret Page.detected)
    (fun _ _ _ _ => throw "no trace")
    (fun _ _ _ => mret Page.simulator)
    (fun _ _ => throw "no trace")
    Page.snapshotArtifacts None Page.world
  = audit "unused-javascript" tt (fun _ : unit => 0) (fun graph (_ : unit) => graph)
      (fun graph (_ : unit) => graph)
      (fun _ _ => mret [Page.document])
      (fun _ _ _ => mret Page.detected)
      (fun _ _ _ _ => mret Page.graph)
      (fun _ _ _ => mret Page.simulator)
      (fun _ _ => mret tt)
      Page.snapshotArtifacts None Page.world.
Proof.
  apply (audit_ignores_navigation_requests "unused-javascript" tt (fun _ : unit => 0)
           (fun graph (_ : unit) => graph) (fun graph (_ : unit) => graph)
           (fun _ _ => mret [Page.document])
           (fun _ _ _ => mret Page.detected)
           (fun _ _ _ _ => throw "no trace") (fun _ _ _ _ => mret Page.graph)
           (fun _ _ _ => mret Page.simulator)
           (fun _ _ => throw "no trace") (fun _ _ => mret tt)
           Page.snapshotArtifacts None Page.world).
  discriminate.
Defined.

Lemma audit_unimplemented_witness :
  (audit (Headings := unit) "byte-efficiency" tt (fun _ : unit => 0)
     (fun graph (_ : unit) => graph) (fun graph (_ : unit) => graph)
     (fun _ _ => mret Page.idleRecords)
     Base.audit_
     (fun _ _ _ _ => mret Page.graph)
     (fun _ _ _ => mret Page.simulator)
     (fun _ _ => mret tt)
     Page.navigationArtifacts None Page.world).2
  = Thrown "audit_ unimplemented".
Proof.
  apply (audit_unimplemented (Headings := unit) "byte-efficiency" tt (fun _ : unit => 0)
           (fun graph (_ : unit) => graph) (fun graph (_ : unit) => graph)
           (fun _ _ => mret Page.idleRecords)
           (fun _ _ _ _ => mret Page.graph)
           (fun _ _ _ => mret Page.simulator)
           (fun _ _ => mret tt)
           Page.navigationArtifacts None Page.world
           (withLog Page.world [NetworkRecordsRequest]) Page.idleRecords).
  - reflexivity.
  - right. discriminate.
Defined.

Lemma unmatched_urls_no_savings_witness :
  let run :=
    computeWasteWithGraph "unused-javascript"
      [ {| ByteEfficiencyItem.url := "https://example.com/font.woff";
           ByteEfficiencyItem.wastedBytes := 2000 |} ]
      Page.graph Page.simulator None Page.world in
  records run.1 = Page.pageRecords
  /\ exists waste, run.2 = Returned waste /\ savings waste == 0.
Proof.
  pose proof (unmatched_urls_no_savings "unused-javascript"
                [ {| ByteEfficiencyItem.url := "https://example.com/font.woff";
                     ByteEfficiencyItem.wastedBytes := 2000 |} ]
                Page.graph Page.simulator None Page.world
                {| timeInMs := 15500 / 125; nodeTimings := tt |}) as H.
  cbv zeta in H. destruct H as (Hrecords & waste & Hwaste & Hzero & _).
  - intros r Hr. left.
    apply elem_of_cons in Hr as [-> | Hr]; [vm_compute; reflexivity |].
    apply elem_of_cons in Hr as [-> | Hr]; [vm_compute; reflexivity |].
    apply elem_of_nil in Hr. contradiction.
  - exact example_simulator_deterministic.
  - vm_compute. reflexivity.
  - split; [exact Hrecords |]. exists waste. split; [exact Hwaste | exact Hzero].
Defined.
